(** * models.py: orders, order validation and the best-price report

    A shallow embedding of [models.py] (classes [Product], [TransactionType],
    [OrderType], [Order], [Orders]) over a small model of the Python values the
    module computes with: unbounded integers, IEEE 754 binary64 floats,
    insertion-ordered dictionaries, exceptions and standard output. *)

From Stdlib Require Import ZArith List String Ascii Bool Lia QArith Qround.
From Stdlib Require Import DecimalString.
From Stdlib Require Import Floats.SpecFloat.
Import ListNotations.

Local Open Scope Z_scope.
Local Open Scope string_scope.

(** ** Python values *)

Module Py.

(** *** Exceptions: the class that is raised and the message it carries. *)

Inductive exn : Type :=
| TypeError (msg : string)
| OverflowError (msg : string).

Definition exn_class (e : exn) : string :=
  match e with
  | TypeError _ => "TypeError"
  | OverflowError _ => "OverflowError"
  end.

Definition exn_msg (e : exn) : string :=
  match e with
  | TypeError m => m
  | OverflowError m => m
  end.

(** A computation that returns a value or raises. *)
Definition result (A : Type) : Type := (exn + A)%type.

Definition ret {A} (a : A) : result A := inr a.
Definition raise {A} (e : exn) : result A := inl e.
Definition bind {A B} (c : result A) (k : A -> result B) : result B :=
  match c with
  | inl e => inl e
  | inr a => k a
  end.

(** *** Floats: binary64, as [spec_float] with [prec = 53], [emax = 1024]. *)

Definition prec : Z := 53.
Definition emax : Z := 1024.

Definition float : Type := spec_float.

Definition fadd : float -> float -> float := SFadd prec emax.
Definition fmul : float -> float -> float := SFmul prec emax.
Definition fdiv : float -> float -> float := SFdiv prec emax.

(** The float nearest to an integer (ties to even); an infinity when the
    integer is out of range. *)
Definition float_of_Z (z : Z) : float := binary_normalize prec emax z 0 false.

Definition is_nan (f : float) : bool :=
  match f with S754_nan => true | _ => false end.

Definition is_inf (f : float) : bool :=
  match f with S754_infinity _ => true | _ => false end.

(** [float(z)] for an [int]: raises when the integer does not fit. *)
Definition int_to_float (z : Z) : result float :=
  let f := float_of_Z z in
  if is_inf f then raise (OverflowError "int too large to convert to float")
  else ret f.

(** *** Numbers: [int] and [float], with Python's mixed arithmetic. *)

Inductive number : Type :=
| PyInt (z : Z)
| PyFloat (f : float).

Definition number_add (a b : number) : result number :=
  match a, b with
  | PyInt x, PyInt y => ret (PyInt (x + y))
  | PyInt x, PyFloat g => bind (int_to_float x) (fun f => ret (PyFloat (fadd f g)))
  | PyFloat f, PyInt y => bind (int_to_float y) (fun g => ret (PyFloat (fadd f g)))
  | PyFloat f, PyFloat g => ret (PyFloat (fadd f g))
  end.

Definition number_mul (a b : number) : result number :=
  match a, b with
  | PyInt x, PyInt y => ret (PyInt (x * y))
  | PyInt x, PyFloat g => bind (int_to_float x) (fun f => ret (PyFloat (fmul f g)))
  | PyFloat f, PyInt y => bind (int_to_float y) (fun g => ret (PyFloat (fmul f g)))
  | PyFloat f, PyFloat g => ret (PyFloat (fmul f g))
  end.

(** Comparison of an integer with a float is exact (no conversion). *)
Definition Z_compare_float (z : Z) (f : float) : option comparison :=
  match f with
  | S754_nan => None
  | S754_infinity s => Some (if s then Gt else Lt)
  | S754_zero _ => Some (Z.compare z 0)
  | S754_finite s m e =>
      let v := if s then Zneg m else Zpos m in
      if (0 <=? e)%Z then Some (Z.compare z (v * 2 ^ e)) else Some (Z.compare (z * 2 ^ (- e)) v)
  end.

Definition number_compare (a b : number) : option comparison :=
  match a, b with
  | PyInt x, PyInt y => Some (Z.compare x y)
  | PyInt x, PyFloat g => Z_compare_float x g
  | PyFloat f, PyInt y => option_map CompOpp (Z_compare_float y f)
  | PyFloat f, PyFloat g => SFcompare f g
  end.

(** [a < b], [a <= b] and [a == b]. *)
Definition number_lt (a b : number) : bool :=
  match number_compare a b with Some Lt => true | _ => false end.

Definition number_le (a b : number) : bool :=
  match number_compare a b with Some (Lt | Eq) => true | _ => false end.

Definition number_eq (a b : number) : bool :=
  match number_compare a b with Some Eq => true | _ => false end.

Definition number_is_nan (a : number) : bool :=
  match a with PyFloat f => is_nan f | PyInt _ => false end.

(** *** [str]: decimal text of numbers.

    [str] of an [int] is its decimal numeral.  [str] of a [float] is the
    shortest decimal numeral that reads back as the same float (the closest
    to the float among the shortest), laid out in positional notation when
    its decimal point falls in the range [-4 < decpt <= 16] and in exponent
    notation otherwise. *)

Definition str_int (z : Z) : string := NilZero.string_of_int (Z.to_int z).

Definition Qpow10 (k : Z) : Q := Qpower (10 # 1) k.
Definition Qpow2 (k : Z) : Q := Qpower (2 # 1) k.
Definition Qlt_bool (a b : Q) : bool := negb (Qle_bool b a).

(** The exact value of the positive finite float [m * 2^e]. *)
Definition Q_of_float (m : positive) (e : Z) : Q := (inject_Z (Zpos m) * Qpow2 e)%Q.

(** The [p] with [10^p <= v < 10^(p+1)], searched downwards from [p]. *)
Fixpoint decimal_exponent (fuel : nat) (p : Z) (v : Q) : Z :=
  match fuel with
  | O => p
  | S fuel' =>
      if Qle_bool (Qpow10 p) v then p else decimal_exponent fuel' (p - 1) v
  end.

(** Does the rational [c] round (to nearest, ties to even) to [m * 2^e]? *)
Definition reads_back (m : positive) (e : Z) (c : Q) : bool :=
  let v := Q_of_float m e in
  let up := Qpow2 (e - 1) in
  let down :=
    if Pos.eqb m (2 ^ 52) && (SpecFloat.emin prec emax <? e)%Z
    then Qpow2 (e - 2) else Qpow2 (e - 1) in
  if Z.even (Zpos m)
  then Qle_bool (v - down)%Q c && Qle_bool c (v + up)%Q
  else Qlt_bool (v - down)%Q c && Qlt_bool c (v + up)%Q.

(** The two [n]-digit neighbours [d * 10^k] and [(d+1) * 10^k] of the float,
    the nearer first. *)
Definition neighbours (m : positive) (e : Z) (n : Z) : Z * Z * Z :=
  let v := Q_of_float m e in
  let k := decimal_exponent 700 308 v - (n - 1) in
  let q := (v / Qpow10 k)%Q in
  let d := Qfloor q in
  let lower_first :=
    match Qcompare (q - inject_Z d)%Q (inject_Z (d + 1) - q)%Q with
    | Lt => true
    | Eq => Z.even d
    | Gt => false
    end in
  if lower_first then (d, d + 1, k) else (d + 1, d, k).

Fixpoint shortest_digits (m : positive) (e : Z) (fuel : nat) (n : Z) : Z * Z :=
  let '(c1, c2, k) := neighbours m e n in
  match fuel with
  | O => (c1, k)
  | S fuel' =>
      if reads_back m e (inject_Z c1 * Qpow10 k)%Q then (c1, k)
      else if reads_back m e (inject_Z c2 * Qpow10 k)%Q then (c2, k)
      else shortest_digits m e fuel' (n + 1)
  end.

Fixpoint strip_zeros (fuel : nat) (c k : Z) : Z * Z :=
  match fuel with
  | O => (c, k)
  | S fuel' =>
      if (c mod 10 =? 0)%Z then strip_zeros fuel' (c / 10) (k + 1) else (c, k)
  end.

Fixpoint zeros (n : nat) : string :=
  match n with
  | O => ""
  | S n' => "0" ++ zeros n'
  end.

(** Layout of the digit string [ds] read as [0.ds * 10^decpt]. *)
Definition layout (ds : string) (decpt : Z) : string :=
  let n := Z.of_nat (String.length ds) in
  if ((decpt <=? -4) || (16 <? decpt))%Z then
    let x := decpt - 1 in
    let mant :=
      if (n =? 1)%Z then ds
      else substring 0 1 ds ++ "." ++ substring 1 (String.length ds - 1) ds in
    let ex := str_int (Z.abs x) in
    mant ++ "e" ++ (if (x <? 0)%Z then "-" else "+")
         ++ (if (Z.abs x <? 10)%Z then "0" ++ ex else ex)
  else if (decpt <=? 0)%Z then "0." ++ zeros (Z.to_nat (- decpt)) ++ ds
  else if (n <=? decpt)%Z then ds ++ zeros (Z.to_nat (decpt - n)) ++ ".0"
  else substring 0 (Z.to_nat decpt) ds ++ "."
       ++ substring (Z.to_nat decpt) (String.length ds - Z.to_nat decpt) ds.

Definition str_float (f : float) : string :=
  match f with
  | S754_nan => "nan"
  | S754_infinity s => if s then "-inf" else "inf"
  | S754_zero s => if s then "-0.0" else "0.0"
  | S754_finite s m e =>
      let '(c0, k0) := shortest_digits m e 16 1 in
      let '(c, k) := strip_zeros 17 c0 k0 in
      let ds := str_int c in
      (if s then "-" else "") ++ layout ds (Z.of_nat (String.length ds) + k)
  end.

Definition str (a : number) : string :=
  match a with
  | PyInt z => str_int z
  | PyFloat f => str_float f
  end.

(** Float literals used by the examples, from their decimal quotients. *)
Definition float_of_ratio (p q : Z) : float := fdiv (float_of_Z p) (float_of_Z q).

End Py.

(** ** Dictionaries: association lists in insertion order *)

Module Dict.
Section Dict.
Context {K V : Type}.
Variable eqb : K -> K -> bool.

Definition t : Type := list (K * V).

Definition empty : t := [].

(** [d.get(k)] *)
Fixpoint get (d : t) (k : K) : option V :=
  match d with
  | [] => None
  | (k', v) :: d' => if eqb k' k then Some v else get d' k
  end.

(** [d[k] = v]: an existing key keeps its place, a new key goes last. *)
Fixpoint set (d : t) (k : K) (v : V) : t :=
  match d with
  | [] => [(k, v)]
  | (k', v') :: d' => if eqb k' k then (k', v) :: d' else (k', v') :: set d' k v
  end.

(** [len(d)] *)
Definition len (d : t) : Z := Z.of_nat (List.length d).

(** [d.items()] and [d.keys()] *)
Definition items (d : t) : list (K * V) := d.
Definition keys (d : t) : list K := map fst d.
End Dict.
End Dict.

(** ** The module [models.py] *)

Import Py.

(** [class Product] *)
Record Product : Type := mkProduct { name : string; price : float }.

(** [class TransactionType(Enum)] *)
Inductive TransactionType : Type := BUY | SELL.

Definition TransactionType_value (t : TransactionType) : string :=
  match t with
  | BUY => "Buy"
  | SELL => "Sell"
  end.

(** [TransactionType.__members__.values()] *)
Definition TransactionType_members : list TransactionType := [BUY; SELL].

Definition TransactionType_eqb (a b : TransactionType) : bool :=
  match a, b with
  | BUY, BUY | SELL, SELL => true
  | _, _ => false
  end.

(** [class OrderType(Enum)] *)
Inductive OrderType : Type := ADD | REMOVE.

Definition OrderType_value (o : OrderType) : string :=
  match o with
  | ADD => "Add"
  | REMOVE => "Remove"
  end.

(** [OrderType.__members__.values()] *)
Definition OrderType_members : list OrderType := [ADD; REMOVE].

Definition OrderType_eqb (a b : OrderType) : bool :=
  match a, b with
  | ADD, ADD | REMOVE, REMOVE => true
  | _, _ => false
  end.

(** The objects a caller may pass where [Order] expects an enum member. *)
Inductive value : Type :=
| VTransactionType (t : TransactionType)
| VOrderType (o : OrderType)
| VStr (s : string)
| VNum (n : number)
| VNone.

(** [x == y]: an enum member equals only itself (the enums are plain [Enum]s,
    so a member is not equal to its value string). *)
Definition value_eqb (x y : value) : bool :=
  match x, y with
  | VTransactionType a, VTransactionType b => TransactionType_eqb a b
  | VOrderType a, VOrderType b => OrderType_eqb a b
  | VStr a, VStr b => String.eqb a b
  | VNum a, VNum b => number_eq a b
  | VNone, VNone => true
  | _, _ => false
  end.

(** [x in members]: the member [x] is equal to, if any. *)
Definition member_of {E : Type} (inj : E -> value) (x : value) (members : list E)
  : option E :=
  find (fun m => value_eqb x (inj m)) members.

Definition dq : string := String (ascii_of_nat 34) EmptyString.

Definition TRANSACTION_TYPE_ERROR_MSG : string :=
  "Invalid transaction type. It should be " ++ dq ++ "Buy" ++ dq ++ " or "
    ++ dq ++ "Sell" ++ dq ++ ".".

Definition ORDER_TYPE_ERROR_MSG : string :=
  "Invalid order type. It should be " ++ dq ++ "Add" ++ dq ++ " or "
    ++ dq ++ "Remove" ++ dq ++ ".".

(** [class Order]: [products] is the dictionary [{product: quantity}], keyed by
    [Product] objects (by identity, so every entry is a key of its own) and
    kept in insertion order. *)
Record Order : Type := mkOrder {
  products : list (Product * Z);
  transaction_type : TransactionType;
  order_type : OrderType
}.

(** [Order.__init__] *)
Definition Order_init (products : list (Product * Z))
    (transaction_type order_type : value) : result Order :=
  match member_of VTransactionType transaction_type TransactionType_members with
  | None => raise (TypeError TRANSACTION_TYPE_ERROR_MSG)
  | Some t =>
      match member_of VOrderType order_type OrderType_members with
      | None => raise (TypeError ORDER_TYPE_ERROR_MSG)
      | Some o =>
          ret {| products := products; transaction_type := t; order_type := o |}
      end
  end.

(** [class Orders] *)
Record Orders : Type := mkOrders { orders : Dict.t (K := Z) (V := Order) }.

(** [Orders.__init__] *)
Definition Orders_init : Orders := {| orders := Dict.empty |}.

(** *** Methods: state is the [Orders] object and the text on standard
    output; a method returns a value or raises, and leaves a state. *)

Record state : Type := mkState { self : Orders; stdout : string }.

Definition M (A : Type) : Type := state -> result A * state.

Definition retM {A} (a : A) : M A := fun w => (ret a, w).

Definition bindM {A B} (c : M A) (k : A -> M B) : M B :=
  fun w =>
    match c w with
    | (inl e, w') => (inl e, w')
    | (inr a, w') => k a w'
    end.

Definition lift {A} (c : result A) : M A := fun w => (c, w).

Definition get_orders : M (Dict.t (K := Z) (V := Order)) :=
  fun w => (ret (orders (self w)), w).

Definition put_orders (d : Dict.t (K := Z) (V := Order)) : M unit :=
  fun w => (ret tt, {| self := {| orders := d |}; stdout := stdout w |}).

Definition newline : string := String (ascii_of_nat 10) EmptyString.

(** [print(s)] *)
Definition print (s : string) : M unit :=
  fun w => (ret tt, {| self := self w; stdout := stdout w ++ s ++ newline |}).

Declare Scope monad_scope.
Delimit Scope monad_scope with monad.
Notation "x <- c ;; k" := (bindM c (fun x => k))
  (at level 61, c at next level, right associativity) : monad_scope.
Notation "c ;;; k" := (bindM c (fun _ => k))
  (at level 61, right associativity) : monad_scope.

(** [for x in l: body(x)] *)
Fixpoint for_each {A} (l : list A) (body : A -> M unit) : M unit :=
  match l with
  | [] => retM tt
  | x :: l' => bindM (body x) (fun _ => for_each l' body)
  end.

(** A loop that threads a local variable and may raise. *)
Fixpoint foldM {A B} (f : A -> B -> result A) (l : list B) (a : A) : result A :=
  match l with
  | [] => ret a
  | b :: l' => bind (f a b) (foldM f l')
  end.

(** [Orders._get_next_id] *)
Definition _get_next_id : M Z :=
  (d <- get_orders ;; retM (Dict.len d + 1))%monad.

(** The inner loop of [display_order_with_a_best_price]: [total_sum] of one
    order, from the integer [0]. *)
Definition order_total (order : Order) : result number :=
  foldM (fun total_sum '(product, quantity) =>
           bind (number_mul (PyInt quantity) (PyFloat (price product)))
                (number_add total_sum))
        (products order) (PyInt 0).

Definition best : Type := Dict.t (K := TransactionType) (V := Z * number).

(** The body of the outer loop.  [not result.get(t)] holds exactly when [t]
    is not yet a key: a stored [[order_id, total_sum]] list is never empty. *)
Definition best_step (result : best) (item : Z * Order) : Py.result best :=
  let '(order_id, order) := item in
  bind (order_total order) (fun total_sum =>
    match Dict.get TransactionType_eqb result (transaction_type order) with
    | None =>
        ret (Dict.set TransactionType_eqb result (transaction_type order)
                      (order_id, total_sum))
    | Some details =>
        if number_lt (snd details) total_sum
        then ret (Dict.set TransactionType_eqb result (transaction_type order)
                           (order_id, total_sum))
        else ret result
    end).

(** The dictionary [result] when the outer loop ends. *)
Definition best_orders (d : Dict.t (K := Z) (V := Order)) : Py.result best :=
  foldM best_step (Dict.items d) Dict.empty.

(** The line printed for one entry of [result]. *)
Definition best_line (entry : TransactionType * (Z * number)) : string :=
  let '(transaction_type, details) := entry in
  "Best " ++ TransactionType_value transaction_type ++ " Order: ID = "
    ++ str_int (fst details) ++ ", Price = " ++ str (snd details).

(** [Orders.display_order_with_a_best_price] *)
Definition display_order_with_a_best_price : M unit :=
  (d <- get_orders ;;
   result <- lift (best_orders d) ;;
   for_each (Dict.items result) (fun entry => print (best_line entry)))%monad.

(** [Orders.add_order] *)
Definition add_order (order : Order) : M unit :=
  (next_id <- _get_next_id ;;
   d <- get_orders ;;
   put_orders (Dict.set Z.eqb d next_id order) ;;;
   display_order_with_a_best_price)%monad.

(** The state a sequence of [add_order] calls leaves (whether or not a call
    raised: the caller goes on). *)
Definition add_orders (os : list Order) (w : state) : state :=
  fold_left (fun w o => snd (add_order o w)) os w.

(** A fresh [Orders()] and nothing printed yet. *)
Definition fresh : state := {| self := Orders_init; stdout := "" |}.

(** The fixture of [models_test.py]. *)
Definition fixture_orders : list Order :=
  [ mkOrder [(mkProduct "Banana" (float_of_ratio 99 1), 99)] BUY ADD;
    mkOrder [(mkProduct "Apple" (float_of_ratio 1 1), 1)] BUY ADD;
    mkOrder [(mkProduct "Orange" (float_of_ratio 53 1), 1)] SELL ADD;
    mkOrder [(mkProduct "Lemon" (float_of_ratio 1 10), 9)] SELL ADD ].

(** ** Specification vocabulary *)

(** The text of a list of printed lines. *)
Fixpoint lines (ls : list string) : string :=
  match ls with
  | [] => ""
  | l :: ls' => l ++ newline ++ lines ls'
  end.

(** The orders of a list numbered from [k] on, in order. *)
Fixpoint numbered (k : Z) (os : list Order) : list (Z * Order) :=
  match os with
  | [] => []
  | o :: os' => (k, o) :: numbered (k + 1) os'
  end.

Ltac cmp_cases :=
  repeat match goal with
    | |- context [Z.compare ?a ?b] => destruct (Z.compare_spec a b)
    | H : context [Z.compare ?a ?b] |- _ => destruct (Z.compare_spec a b)
    | |- context [PosDef.Pos.compare_cont Eq ?a ?b] =>
        change (PosDef.Pos.compare_cont Eq a b) with (Pos.compare a b);
        destruct (Pos.compare_spec a b)
    | H : context [PosDef.Pos.compare_cont Eq ?a ?b] |- _ =>
        change (PosDef.Pos.compare_cont Eq a b) with (Pos.compare a b) in *;
        destruct (Pos.compare_spec a b)
    end.

Ltac float_cases :=
  repeat match goal with
    | f : float |- _ => destruct f
    | s : bool |- _ => destruct s
    end;
  simpl in *; try congruence; cmp_cases; simpl in *; subst;
  try congruence; try lia.

(** A total is the integer [0] or a float; on totals, comparison is float
    comparison with the integer [0] read as [0.0]. *)
Definition is_total (s : number) : Prop := s = PyInt 0 \/ exists f, s = PyFloat f.

Definition total_float (s : number) : float :=
  match s with
  | PyInt _ => S754_zero false
  | PyFloat f => f
  end.

(** The sum over the products mapping of quantity times price: float
    multiplications added from the left, starting from the integer [0]. *)
Definition sum_products (ps : list (Product * Z)) : number :=
  match ps with
  | [] => PyInt 0
  | _ =>
      PyFloat (fold_left
                 (fun acc pq => fadd acc (fmul (float_of_Z (snd pq)) (price (fst pq))))
                 ps (S754_zero false))
  end.

(** The quantity converts to a float. *)
Definition fits_float (q : Z) : bool := negb (is_inf (float_of_Z q)).

Definition total_step (total_sum : number) (pq : Product * Z) : result number :=
  let '(product, quantity) := pq in
  bind (number_mul (PyInt quantity) (PyFloat (price product)))
       (number_add total_sum).

Abbreviation tget := (Dict.get TransactionType_eqb).
Abbreviation tset := (Dict.set TransactionType_eqb).

(** One turn of the outer loop, for an order whose total is computed. *)
Definition best_update (res : best) (j : Z) (t : TransactionType) (s : number)
  : best :=
  match tget res t with
  | None => tset res t (j, s)
  | Some details => if number_lt (snd details) s then tset res t (j, s) else res
  end.

(** What the loop maintains: an entry of [result] is a stored order of its
    type with its total, none of the stored orders of the type has a greater
    total, and none with an equal total has a lower identifier. *)
Record best_inv (d : list (Z * Order)) (res : best) : Prop := {
  inv_none : forall t, tget res t = None ->
    forall j o, In (j, o) d -> transaction_type o <> t;
  inv_entry : forall t i s, tget res t = Some (i, s) ->
    exists o, In (i, o) d /\ transaction_type o = t /\ order_total o = inr s;
  inv_max : forall t i s, tget res t = Some (i, s) ->
    forall j o s', In (j, o) d -> transaction_type o = t ->
                   order_total o = inr s' -> number_lt s s' = false;
  inv_first : forall t i s, tget res t = Some (i, s) ->
    forall j o s', In (j, o) d -> transaction_type o = t ->
                   order_total o = inr s' -> number_eq s' s = true -> i <= j
}.

(** Every order of the list has a total. *)
Definition totals_computed (os : list Order) : Prop :=
  Forall (fun o => exists s, order_total o = inr s) os.


Definition types_of (d : list (Z * Order)) : list TransactionType :=
  map (fun e => transaction_type (snd e)) d.


(** The validation of [Order.__init__], for the exception classes [c1] (bad
    [transaction_type]) and [c2] (bad [order_type]). *)
Definition validation_spec (c1 c2 : string)
    (ps : list (Product * Z)) (tt ot : value) : Prop :=
  ((forall t, tt <> VTransactionType t) ->
   exists e, Order_init ps tt ot = inl e
             /\ exn_class e = c1 /\ exn_msg e = TRANSACTION_TYPE_ERROR_MSG)
  /\ (forall t, tt = VTransactionType t -> (forall o, ot <> VOrderType o) ->
      exists e, Order_init ps tt ot = inl e
                /\ exn_class e = c2 /\ exn_msg e = ORDER_TYPE_ERROR_MSG)
  /\ (forall t o, tt = VTransactionType t -> ot = VOrderType o ->
      Order_init ps tt ot
      = inr {| products := ps; transaction_type := t; order_type := o |}).

(** Every quantity of the order converts to a float. *)
Definition quantities_fit (o : Order) : Prop :=
  Forall (fun pq => fits_float (snd pq) = true) (products o).

(** [(i, s)] is the best order of type [t] in [d]: the order stored under
    [i] has type [t] and total [s]; every stored order of type [t] has a total
    at most [s]; and [i] is the lowest identifier of a stored order of type
    [t] whose total equals [s]. *)
Definition is_best (d : list (Z * Order)) (t : TransactionType) (i : Z)
    (s : number) : Prop :=
  (exists o, In (i, o) d /\ transaction_type o = t
             /\ s = sum_products (products o))
  /\ (forall j o, In (j, o) d -> transaction_type o = t ->
                  number_le (sum_products (products o)) s = true)
  /\ (forall j o, In (j, o) d -> transaction_type o = t ->
                  number_eq (sum_products (products o)) s = true -> i <= j).

(** The report after the orders [os] were inserted into a fresh [Orders()]:
    the dictionary [result] is computed, its lines are printed, and for every
    transaction type with a stored order it holds the best order. *)
Definition report_names_best (os : list Order) : Prop :=
  let w := add_orders os fresh in
  exists res,
    best_orders (orders (self w)) = inr res
    /\ display_order_with_a_best_price w
       = (inr tt, {| self := self w;
                     stdout := stdout w ++ lines (map best_line res) |})
    /\ forall t, In t (types_of (orders (self w))) ->
                 exists i s, tget res t = Some (i, s)
                             /\ is_best (orders (self w)) t i s.

(** An order of one product line. *)
Definition one_line (p : float) (q : Z) (t : TransactionType) : Order :=
  {| products := [({| name := "X"; price := p |}, q)];
     transaction_type := t; order_type := ADD |}.


(** Two orders that differ at most in [order_type]. *)
Definition same_but_order_type (a b : Order) : Prop :=
  products a = products b /\ transaction_type a = transaction_type b.

(** The order with its [order_type] forgotten. *)
Definition erase_order_type (o : Order) : Order :=
  {| products := products o; transaction_type := transaction_type o;
     order_type := ADD |}.

(** The text one call prints when the stored orders are [os]: the lines of
    [result], or nothing when the loop raises. *)
Definition report_text (os : list Order) : string :=
  match best_orders (numbered 1 os) with
  | inl _ => ""
  | inr res => lines (map best_line res)
  end.

(** The text printed by the calls that insert [todo] after [done]: one
    report per call, each over all the orders stored so far. *)
Fixpoint transcript (done todo : list Order) : string :=
  match todo with
  | [] => ""
  | o :: todo' =>
      report_text (done ++ [o]) ++ transcript (done ++ [o]) todo'
  end.

(** The entries of a book whose order has transaction type [t]. *)
Definition of_type (t : TransactionType) (d : list (Z * Order)) : list (Z * Order) :=
  filter (fun e => TransactionType_eqb (transaction_type (snd e)) t) d.

(** A float that is a number: a zero or a finite value. *)
Definition is_finite (p : float) : bool :=
  match p with
  | S754_zero _ | S754_finite _ _ _ => true
  | _ => false
  end.

(** Two floats that are the same up to the sign of zero. *)
Definition same_rank (a b : float) : Prop :=
  a = b \/ (exists s s', a = S754_zero s /\ b = S754_zero s').


(** ** Basic facts: strings, dictionaries, the monad *)

Lemma append_assoc (s1 s2 s3 : string) : (s1 ++ s2) ++ s3 = s1 ++ (s2 ++ s3).
Proof. induction s1 as [|c s1 IH]; simpl; [reflexivity | now rewrite IH]. Qed.

Lemma append_nil_r (s : string) : s ++ "" = s.
Proof. induction s as [|c s IH]; simpl; [reflexivity | now rewrite IH]. Qed.

Lemma foldM_app {A B} (f : A -> B -> result A) (l1 l2 : list B) (a : A) :
  foldM f (l1 ++ l2)%list a = bind (foldM f l1 a) (foldM f l2).
Proof.
  revert a; induction l1 as [|b l1 IH]; intros a; simpl; [reflexivity|].
  destruct (f a b) as [e|a']; simpl; [reflexivity | apply IH].
Qed.

Lemma TransactionType_eqb_eq (a b : TransactionType) :
  TransactionType_eqb a b = true <-> a = b.
Proof. destruct a, b; simpl; split; congruence. Qed.


Lemma TransactionType_eqb_neq (a b : TransactionType) :
  TransactionType_eqb a b = false <-> a <> b.
Proof. destruct a, b; simpl; split; congruence. Qed.

Section DictFacts.
Context {K V : Type}.
Variable eqb : K -> K -> bool.
Hypothesis eqb_eq : forall a b, eqb a b = true <-> a = b.

Lemma get_set_same (d : Dict.t) (k : K) (v : V) :
    Dict.get eqb (Dict.set eqb d k v) k = Some v.
Proof.
    induction d as [|[k' v'] d IH]; simpl.
    - replace (eqb k k) with true; [reflexivity | symmetry; now apply eqb_eq].
    - destruct (eqb k' k) eqn:E; simpl; rewrite E; [reflexivity | exact IH].
Qed.

Lemma get_set_other (d : Dict.t) (k k0 : K) (v : V) :
    k0 <> k -> Dict.get eqb (Dict.set eqb d k v) k0 = Dict.get eqb d k0.
Proof.
    intros Hne; induction d as [|[k' v'] d IH]; simpl.
    - destruct (eqb k k0) eqn:E; [apply eqb_eq in E; congruence | reflexivity].
    - destruct (eqb k' k) eqn:E; simpl.
      + apply eqb_eq in E; subst k'.
        destruct (eqb k k0) eqn:E0; [apply eqb_eq in E0; congruence | reflexivity].
      + destruct (eqb k' k0); [reflexivity | exact IH].
Qed.

Lemma set_new (d : Dict.t) (k : K) (v : V) :
    ~ In k (Dict.keys d) -> Dict.set eqb d k v = (d ++ [(k, v)])%list.
Proof.
    induction d as [|[k' v'] d IH]; simpl; intros Hn; [reflexivity|].
    destruct (eqb k' k) eqn:E.
    - apply eqb_eq in E; tauto.
    - rewrite IH; [reflexivity | tauto].
Qed.


Lemma get_Some_In (d : Dict.t) (k : K) (v : V) :
    Dict.get eqb d k = Some v -> In (k, v) d.
Proof.
    induction d as [|[k' v'] d IH]; simpl; [discriminate|].
    destruct (eqb k' k) eqn:E; intros H.
    - apply eqb_eq in E; left; congruence.
    - right; auto.
Qed.

Lemma keys_set (d : Dict.t) (k k0 : K) (v : V) :
    In k0 (Dict.keys (Dict.set eqb d k v)) <-> k0 = k \/ In k0 (Dict.keys d).
Proof.
    induction d as [|[k' v'] d IH]; simpl; [intuition congruence|].
    destruct (eqb k' k) eqn:E; simpl.
    - apply eqb_eq in E; subst; intuition congruence.
    - rewrite IH; intuition congruence.
Qed.
End DictFacts.

Lemma numbered_app (k : Z) (os1 os2 : list Order) :
  numbered k (os1 ++ os2)%list
  = (numbered k os1 ++ numbered (k + Z.of_nat (List.length os1)) os2)%list.
Proof.
  revert k; induction os1 as [|o os1 IH]; intros k.
  - simpl; now rewrite Z.add_0_r.
  - cbn [List.length app numbered]; rewrite IH; do 3 f_equal; lia.
Qed.

Lemma numbered_keys (k : Z) (os : list Order) (j : Z) :
  In j (Dict.keys (numbered k os)) -> k <= j < k + Z.of_nat (List.length os).
Proof.
  revert k; induction os as [|o os IH]; intros k; cbn [numbered Dict.keys map In List.length fst].
  - tauto.
  - intros [<-|H]; [lia|]. apply IH in H; lia.
Qed.

Lemma numbered_In_key (k : Z) (os : list Order) (j : Z) (o : Order) :
  In (j, o) (numbered k os) -> k <= j < k + Z.of_nat (List.length os).
Proof.
  intros H; apply numbered_keys; unfold Dict.keys.
  change j with (fst (j, o)); now apply in_map.
Qed.

Lemma numbered_length (k : Z) (os : list Order) :
  List.length (numbered k os) = List.length os.
Proof. revert k; induction os; intros; simpl; auto. Qed.

Lemma numbered_values (k : Z) (os : list Order) : map snd (numbered k os) = os.
Proof. revert k; induction os as [|o os IH]; intros; simpl; [|rewrite IH]; auto. Qed.

Lemma numbered_keys_seq (k : nat) (os : list Order) :
  Dict.keys (numbered (Z.of_nat k) os) = map Z.of_nat (seq k (List.length os)).
Proof.
  revert k; induction os as [|o os IH]; intros k; simpl; [reflexivity|].
  f_equal. rewrite <- IH. unfold Dict.keys. do 2 f_equal. lia.
Qed.

(** *** The methods, unfolded *)

Lemma get_next_id_eq (w : state) :
  _get_next_id w = (inr (Dict.len (orders (self w)) + 1), w).
Proof. reflexivity. Qed.

Lemma for_each_print {A} (f : A -> string) (l : list A) (w : state) :
  for_each l (fun x => print (f x)) w
  = (inr tt, {| self := self w; stdout := stdout w ++ lines (map f l) |}).
Proof.
  revert w; induction l as [|x l IH]; intros w; simpl.
  - unfold retM, ret. rewrite append_nil_r. now destruct w.
  - unfold bindM, print at 1; simpl. rewrite IH; simpl.
    now rewrite !append_assoc.
Qed.

Lemma display_eq (w : state) :
  display_order_with_a_best_price w
  = match best_orders (orders (self w)) with
    | inl e => (inl e, w)
    | inr res =>
        (inr tt, {| self := self w;
                    stdout := stdout w ++ lines (map best_line res) |})
    end.
Proof.
  unfold display_order_with_a_best_price, bindM, get_orders, lift, ret; simpl.
  destruct (best_orders (orders (self w))) as [e|res]; [reflexivity|].
  apply for_each_print.
Qed.

Lemma add_order_eq (o : Order) (w : state) :
  add_order o w
  = display_order_with_a_best_price
      {| self := {| orders := Dict.set Z.eqb (orders (self w))
                                (Dict.len (orders (self w)) + 1) o |};
         stdout := stdout w |}.
Proof. reflexivity. Qed.

Lemma display_self (w : state) :
  self (snd (display_order_with_a_best_price w)) = self w.
Proof.
  rewrite display_eq.
  destruct (best_orders (orders (self w))); reflexivity.
Qed.

Lemma add_order_orders (o : Order) (w : state) :
  orders (self (snd (add_order o w)))
  = Dict.set Z.eqb (orders (self w)) (Dict.len (orders (self w)) + 1) o.
Proof. rewrite add_order_eq, display_self; reflexivity. Qed.

Lemma add_orders_snoc (os : list Order) (o : Order) (w : state) :
  add_orders (os ++ [o])%list w = snd (add_order o (add_orders os w)).
Proof. unfold add_orders; now rewrite fold_left_app. Qed.

(** The book after a sequence of insertions into a fresh one. *)
Lemma add_orders_book (os : list Order) :
  orders (self (add_orders os fresh)) = numbered 1 os.
Proof.
  induction os as [|o os IH] using rev_ind; [reflexivity|].
  rewrite add_orders_snoc, add_order_orders, IH, numbered_app.
  unfold Dict.len; rewrite numbered_length.
  rewrite (set_new Z.eqb Z.eqb_eq).
  - cbn [numbered]. now rewrite Z.add_comm.
  - intros H; apply numbered_keys in H; lia.
Qed.

(** ** Order facts of float and number comparison *)

Lemma SFcompare_antisym (f g : float) :
  SFcompare g f = option_map CompOpp (SFcompare f g).
Proof. float_cases. Qed.

Lemma SFcompare_trans (a b c : float) (x : comparison) :
  SFcompare a b = Some x -> SFcompare b c = Some x -> SFcompare a c = Some x.
Proof. intros H1 H2. float_cases. Qed.

Lemma SFcompare_Eq_l (a b c : float) :
  SFcompare a b = Some Eq -> SFcompare a c = SFcompare b c.
Proof. intros H1. float_cases. Qed.

Lemma SFcompare_not_nan (a b : float) :
  is_nan a = false -> is_nan b = false -> exists x, SFcompare a b = Some x.
Proof. intros Ha Hb. float_cases; eexists; reflexivity. Qed.

Lemma SFcompare_refl (a : float) : SFcompare a a = Some Eq \/ SFcompare a a = None.
Proof.
  destruct a as [s|s| |s m e]; simpl; auto; destruct s; auto;
    rewrite Z.compare_refl;
    change (PosDef.Pos.compare_cont Eq m m) with (Pos.compare m m);
    rewrite Pos.compare_refl; auto.
Qed.

Lemma Z_compare_float_0 (f : float) :
  Z_compare_float 0 f = SFcompare (S754_zero false) f.
Proof.
  destruct f as [s|s| |s m e]; try reflexivity.
  unfold Z_compare_float, SFcompare.
  destruct s, (0 <=? e)%Z eqn:E; rewrite ?Z.mul_0_l; try reflexivity; f_equal.
  - apply Z.leb_le in E. apply Z.compare_gt_iff.
    assert (0 < 2 ^ e) by (apply Z.pow_pos_nonneg; lia). nia.
  - apply Z.leb_le in E. apply Z.compare_lt_iff.
    assert (0 < 2 ^ e) by (apply Z.pow_pos_nonneg; lia). nia.
Qed.

Lemma number_compare_total (a b : number) :
  is_total a -> is_total b ->
  number_compare a b = SFcompare (total_float a) (total_float b).
Proof.
  intros [->|[f ->]] [->|[g ->]]; simpl; try reflexivity.
  - apply Z_compare_float_0.
  - rewrite Z_compare_float_0. symmetry. apply SFcompare_antisym.
Qed.

Lemma total_nan (a : number) :
  is_total a -> number_is_nan a = is_nan (total_float a).
Proof. intros [->|[f ->]]; reflexivity. Qed.

Section TotalOrder.
Variables a b c : number.
Hypothesis Ha : is_total a.
Hypothesis Hb : is_total b.
Hypothesis Hc : is_total c.

Lemma number_lt_irrefl : number_lt a a = false.
Proof.
    unfold number_lt. rewrite number_compare_total by assumption.
    destruct (SFcompare_refl (total_float a)) as [-> | ->]; reflexivity.
Qed.

Lemma number_lt_trans :
    number_lt a b = true -> number_lt b c = true -> number_lt a c = true.
Proof.
    unfold number_lt. rewrite !number_compare_total by assumption.
    destruct (SFcompare (total_float a) (total_float b)) as [[]|] eqn:E1;
      try discriminate.
    destruct (SFcompare (total_float b) (total_float c)) as [[]|] eqn:E2;
      try discriminate.
    now rewrite (SFcompare_trans _ _ _ _ E1 E2).
Qed.

Lemma number_lt_eq_r :
    number_lt a b = true -> number_eq c b = true -> number_lt a c = true.
Proof.
    unfold number_lt, number_eq. rewrite !number_compare_total by assumption.
    destruct (SFcompare (total_float c) (total_float b)) as [[]|] eqn:E1;
      try discriminate.
    rewrite (SFcompare_antisym (total_float b) (total_float a)).
    rewrite (SFcompare_antisym (total_float c) (total_float a)).
    now rewrite (SFcompare_Eq_l _ _ _ E1).
Qed.

Lemma number_eq_not_lt : number_eq b a = true -> number_lt a b = false.
Proof.
    unfold number_lt, number_eq. rewrite !number_compare_total by assumption.
    rewrite (SFcompare_antisym (total_float b) (total_float a)).
    destruct (SFcompare (total_float b) (total_float a)) as [[]|];
      simpl; congruence.
Qed.

Lemma number_not_lt_le :
    number_is_nan a = false -> number_is_nan b = false ->
    number_lt a b = false -> number_le b a = true.
Proof.
    rewrite !total_nan by assumption. intros Na Nb.
    unfold number_lt, number_le. rewrite !number_compare_total by assumption.
    pose proof (SFcompare_antisym (total_float a) (total_float b)) as Hs.
    destruct (SFcompare_not_nan _ _ Na Nb) as [r Hr].
    rewrite Hs, Hr. destruct r; simpl; congruence.
Qed.
End TotalOrder.

(** ** The total of an order *)

Lemma order_total_unfold (o : Order) :
  order_total o = foldM total_step (products o) (PyInt 0).
Proof. reflexivity. Qed.

Lemma int_to_float_fits (q : Z) :
  fits_float q = true -> int_to_float q = inr (float_of_Z q).
Proof.
  unfold fits_float, int_to_float. destruct (is_inf (float_of_Z q)); simpl;
    [discriminate | reflexivity].
Qed.

Lemma int_to_float_inr (q : Z) (f : float) :
  int_to_float q = inr f -> fits_float q = true /\ f = float_of_Z q.
Proof.
  unfold fits_float, int_to_float. destruct (is_inf (float_of_Z q)); simpl;
    [discriminate | intros [= <-]; auto].
Qed.

Lemma total_step_float (a : float) (pq : Product * Z) (s : number) :
  total_step (PyFloat a) pq = inr s ->
  fits_float (snd pq) = true /\
  s = PyFloat (fadd a (fmul (float_of_Z (snd pq)) (price (fst pq)))).
Proof.
  destruct pq as [p q]; simpl. unfold bind.
  destruct (int_to_float q) as [e|f] eqn:E; simpl; [discriminate|].
  apply int_to_float_inr in E as [Hq ->]. intros [= <-]; auto.
Qed.

Lemma total_step_zero (pq : Product * Z) (s : number) :
  total_step (PyInt 0) pq = inr s ->
  fits_float (snd pq) = true /\
  s = PyFloat (fadd (S754_zero false) (fmul (float_of_Z (snd pq)) (price (fst pq)))).
Proof.
  destruct pq as [p q]; simpl. unfold bind.
  destruct (int_to_float q) as [e|f] eqn:E; simpl; [discriminate|].
  apply int_to_float_inr in E as [Hq ->]. intros [= <-]; auto.
Qed.

Lemma foldM_total_float (ps : list (Product * Z)) (a : float) (s : number) :
  foldM total_step ps (PyFloat a) = inr s ->
  Forall (fun pq => fits_float (snd pq) = true) ps /\
  s = PyFloat (fold_left
                 (fun acc pq => fadd acc (fmul (float_of_Z (snd pq)) (price (fst pq))))
                 ps a).
Proof.
  revert a; induction ps as [|pq ps IH]; intros a; simpl.
  - intros [= <-]; auto.
  - destruct (total_step (PyFloat a) pq) as [e|s1] eqn:E; simpl; [discriminate|].
    apply total_step_float in E as [Hq ->]. intros H.
    apply IH in H as [HF ->]. auto.
Qed.

(** When the code computes a total, it is the sum, and every quantity fits. *)
Lemma order_total_sum (o : Order) (s : number) :
  order_total o = inr s ->
  s = sum_products (products o) /\
  Forall (fun pq => fits_float (snd pq) = true) (products o).
Proof.
  rewrite order_total_unfold. destruct (products o) as [|pq ps]; simpl.
  - intros [= <-]; auto.
  - destruct (total_step (PyInt 0) pq) as [e|s1] eqn:E; simpl; [discriminate|].
    apply total_step_zero in E as [Hq ->]. intros H.
    apply foldM_total_float in H as [HF ->]. auto.
Qed.

Lemma foldM_total_fits (ps : list (Product * Z)) (a : float) :
  Forall (fun pq => fits_float (snd pq) = true) ps ->
  exists s, foldM total_step ps (PyFloat a) = inr s.
Proof.
  revert a; induction ps as [|[p q] ps IH]; intros a HF; simpl.
  - eexists; reflexivity.
  - inversion HF as [|? ? Hq HF']; subst; simpl in Hq.
    unfold bind at 2. rewrite (int_to_float_fits _ Hq); simpl. apply IH, HF'.
Qed.

(** The code computes the total exactly when every quantity fits. *)
Lemma order_total_fits (o : Order) :
  Forall (fun pq => fits_float (snd pq) = true) (products o) ->
  order_total o = inr (sum_products (products o)).
Proof.
  intros HF.
  assert (exists s, order_total o = inr s) as [s Hs].
  { rewrite order_total_unfold. destruct (products o) as [|[p q] ps]; simpl.
    - eexists; reflexivity.
    - inversion HF as [|? ? Hq HF']; subst; simpl in Hq.
      unfold bind at 2. rewrite (int_to_float_fits _ Hq); simpl.
      apply foldM_total_fits, HF'. }
  rewrite Hs. f_equal. now apply order_total_sum.
Qed.

Lemma sum_products_is_total (ps : list (Product * Z)) : is_total (sum_products ps).
Proof. destruct ps; [left | right; eexists]; reflexivity. Qed.

Lemma order_total_is_total (o : Order) (s : number) :
  order_total o = inr s -> is_total s.
Proof.
  intros H. apply order_total_sum in H as [-> _]. apply sum_products_is_total.
Qed.

(** ** The best order of each transaction type *)

Lemma best_step_eq (res : best) (j : Z) (o : Order) (s : number) :
  order_total o = inr s ->
  best_step res (j, o) = inr (best_update res j (transaction_type o) s).
Proof.
  intros H. unfold best_step, best_update, bind. rewrite H.
  destruct (tget res (transaction_type o)) as [details|]; [|reflexivity].
  destruct (number_lt (snd details) s); reflexivity.
Qed.

Lemma best_step_inr (res res' : best) (j : Z) (o : Order) :
  best_step res (j, o) = inr res' -> exists s, order_total o = inr s.
Proof.
  unfold best_step, bind. destruct (order_total o) as [e|s]; [discriminate|].
  eexists; reflexivity.
Qed.

Lemma best_orders_snoc (d : list (Z * Order)) (j : Z) (o : Order) :
  best_orders (d ++ [(j, o)])%list
  = bind (best_orders d) (fun res => best_step res (j, o)).
Proof.
  unfold best_orders, Dict.items. rewrite foldM_app.
  destruct (foldM best_step d Dict.empty) as [e|res]; [reflexivity|].
  cbn [bind foldM]. now destruct (best_step res (j, o)).
Qed.

Lemma best_inv_empty : best_inv [] Dict.empty.
Proof. split; simpl; intros; try discriminate; tauto. Qed.

Lemma tget_update_other (res : best) (j : Z) (t t0 : TransactionType) (s : number) :
  t0 <> t -> tget (best_update res j t s) t0 = tget res t0.
Proof.
  intros Hne. unfold best_update.
  destruct (tget res t) as [details|];
    [destruct (number_lt (snd details) s)|]; try reflexivity;
    now apply get_set_other; [apply TransactionType_eqb_eq|].
Qed.

Lemma best_inv_step (d : list (Z * Order)) (res : best) (j : Z) (o : Order)
    (s : number) :
  best_inv d res ->
  (forall k o', In (k, o') d -> k < j) ->
  order_total o = inr s ->
  best_inv (d ++ [(j, o)])%list (best_update res j (transaction_type o) s).
Proof.
  intros [Hnone Hentry Hmax Hfirst] Hlt Hs.
  pose proof (order_total_is_total _ _ Hs) as Ts.
  assert (Hin : forall k o', In (k, o') (d ++ [(j, o)])%list ->
                             In (k, o') d \/ (k = j /\ o' = o)).
  { intros k o' H. apply in_app_or in H as [H|[H|[]]]; [auto|].
    right. now inversion H. }
  assert (Hset : tget (tset res (transaction_type o) (j, s)) (transaction_type o)
                 = Some (j, s))
    by (apply get_set_same, TransactionType_eqb_eq).
  split.
  - (* inv_none *)
    intros t Hg k o' Hk.
    destruct (TransactionType_eqb_eq (transaction_type o) t) as [_ Hd].
    destruct (TransactionType_eqb (transaction_type o) t) eqn:E.
    + apply TransactionType_eqb_eq in E. subst t. exfalso.
      unfold best_update in Hg.
      destruct (tget res (transaction_type o)) as [[i0 s0]|] eqn:G;
        [destruct (number_lt (snd (i0, s0)) s)|]; congruence.
    + apply TransactionType_eqb_neq in E.
      rewrite tget_update_other in Hg by congruence.
      apply Hin in Hk as [Hk|[-> ->]]; [eauto | exact E].
  - (* inv_entry *)
    intros t i s1 Hg.
    destruct (TransactionType_eqb (transaction_type o) t) eqn:E.
    + apply TransactionType_eqb_eq in E. subst t. unfold best_update in Hg.
      destruct (tget res (transaction_type o)) as [[i0 s0]|] eqn:G;
        [destruct (number_lt (snd (i0, s0)) s)|].
      * rewrite Hset in Hg. injection Hg as <- <-.
        exists o; repeat split; auto. apply in_or_app; right; now left.
      * rewrite G in Hg. injection Hg as <- <-. destruct (Hentry _ _ _ G) as (o1 & ? & ? & ?).
        exists o1; repeat split; auto. apply in_or_app; now left.
      * rewrite Hset in Hg. injection Hg as <- <-.
        exists o; repeat split; auto. apply in_or_app; right; now left.
    + apply TransactionType_eqb_neq in E.
      rewrite tget_update_other in Hg by congruence.
      destruct (Hentry _ _ _ Hg) as (o1 & ? & ? & ?).
      exists o1; repeat split; auto. apply in_or_app; now left.
  - (* inv_max *)
    intros t i s1 Hg k o' s' Hk Ht Hs'.
    pose proof (order_total_is_total _ _ Hs') as Ts'.
    destruct (TransactionType_eqb (transaction_type o) t) eqn:E.
    + apply TransactionType_eqb_eq in E. rewrite <- E in Hg, Ht. clear E. unfold best_update in Hg.
      destruct (tget res (transaction_type o)) as [[i0 s0]|] eqn:G;
        [destruct (number_lt (snd (i0, s0)) s) eqn:L; simpl in L|].
      * rewrite Hset in Hg. injection Hg as <- <-.
        destruct (Hentry _ _ _ G) as (o0 & _ & _ & Hs0).
        pose proof (order_total_is_total _ _ Hs0) as Ts0.
        apply Hin in Hk as [Hk|[-> ->]].
        -- destruct (number_lt s s') eqn:L'; [|reflexivity].
           rewrite <- (Hmax _ _ _ G _ _ _ Hk Ht Hs').
           symmetry. now apply (number_lt_trans s0 s s').
        -- assert (s' = s) by congruence. subst s'. now apply number_lt_irrefl.
      * rewrite G in Hg. injection Hg as <- <-.
        apply Hin in Hk as [Hk|[-> ->]]; [eauto|].
        assert (s' = s) by congruence. now subst s'.
      * rewrite Hset in Hg. injection Hg as <- <-.
        apply Hin in Hk as [Hk|[-> ->]].
        -- exfalso. eapply Hnone; eauto.
        -- assert (s' = s) by congruence. subst s'. now apply number_lt_irrefl.
    + apply TransactionType_eqb_neq in E.
      rewrite tget_update_other in Hg by congruence.
      apply Hin in Hk as [Hk|[-> ->]]; [eauto | congruence].
  - (* inv_first *)
    intros t i s1 Hg k o' s' Hk Ht Hs' Heq.
    pose proof (order_total_is_total _ _ Hs') as Ts'.
    destruct (TransactionType_eqb (transaction_type o) t) eqn:E.
    + apply TransactionType_eqb_eq in E. rewrite <- E in Hg, Ht. clear E. unfold best_update in Hg.
      destruct (tget res (transaction_type o)) as [[i0 s0]|] eqn:G;
        [destruct (number_lt (snd (i0, s0)) s) eqn:L; simpl in L|].
      * rewrite Hset in Hg. injection Hg as <- <-.
        destruct (Hentry _ _ _ G) as (o0 & _ & _ & Hs0).
        pose proof (order_total_is_total _ _ Hs0) as Ts0.
        apply Hin in Hk as [Hk|[-> ->]]; [exfalso | lia].
        pose proof (Hmax _ _ _ G _ _ _ Hk Ht Hs') as Hm.
        rewrite (number_lt_eq_r s0 s s') in Hm; auto; discriminate.
      * rewrite G in Hg. injection Hg as <- <-.
        apply Hin in Hk as [Hk|[-> ->]]; [eauto|].
        destruct (Hentry _ _ _ G) as (o0 & Hi0 & _ & _).
        apply Hlt in Hi0. lia.
      * rewrite Hset in Hg. injection Hg as <- <-.
        apply Hin in Hk as [Hk|[-> ->]]; [exfalso | lia].
        eapply Hnone; eauto.
    + apply TransactionType_eqb_neq in E.
      rewrite tget_update_other in Hg by congruence.
      apply Hin in Hk as [Hk|[-> ->]]; [eauto | congruence].
Qed.

Lemma best_orders_numbered (k : Z) (os : list Order) :
  totals_computed os ->
  exists res, best_orders (numbered k os) = inr res
              /\ best_inv (numbered k os) res.
Proof.
  unfold totals_computed.
  induction os as [|o os IH] using rev_ind; intros HF.
  - exists Dict.empty; split; [reflexivity | apply best_inv_empty].
  - apply Forall_app in HF as [HF Ho].
    inversion Ho as [|? ? [s Hs] _]; subst.
    destruct (IH HF) as (res & Hres & Hinv).
    rewrite numbered_app. cbn [numbered].
    rewrite best_orders_snoc, Hres. cbn [bind].
    rewrite (best_step_eq _ _ _ _ Hs). eexists; split; [reflexivity|].
    apply best_inv_step; auto.
    intros j o' Hj. apply numbered_In_key in Hj. lia.
Qed.

(** Conversely, the loop ends without raising only if every total is
    computed. *)
Lemma best_orders_inr (k : Z) (os : list Order) (res : best) :
  best_orders (numbered k os) = inr res -> totals_computed os.
Proof.
  unfold totals_computed.
  revert res; induction os as [|o os IH] using rev_ind; intros res H.
  - constructor.
  - rewrite numbered_app in H. cbn [numbered] in H.
    rewrite best_orders_snoc in H.
    destruct (best_orders (numbered k os)) as [e|res0] eqn:E; [discriminate|].
    cbn [bind] in H. apply best_step_inr in H.
    apply Forall_app; split; [eapply IH; reflexivity | now constructor].
Qed.

(** ** The order of the report: transaction types as first met *)









(** ** Identifiers and the frame of the methods *)

(** C3.  Identifier assignment: [_get_next_id] returns [len(orders) + 1] and
    leaves the state as it is; from a fresh [Orders()], the Nth call of
    [add_order] stores its order under the identifier N, after the entries
    already there; after N calls the collection has N entries, with keys
    1, 2, ..., N in this order and the inserted orders as values. *)
Theorem identifiers_sequential :
  (forall w : state,
      _get_next_id w = (inr (Dict.len (orders (self w)) + 1), w))
  /\ (forall (os : list Order) (o : Order),
        let w := add_orders os fresh in
        let N := Z.of_nat (List.length os) + 1 in
        fst (_get_next_id w) = inr N
        /\ orders (self (snd (add_order o w)))
           = (orders (self w) ++ [(N, o)])%list)
  /\ (forall os : list Order,
        let d := orders (self (add_orders os fresh)) in
        Dict.len d = Z.of_nat (List.length os)
        /\ Dict.keys d = map Z.of_nat (seq 1 (List.length os))
        /\ map snd d = os).
Proof.
  split; [|split].
  - intros w. apply get_next_id_eq.
  - intros os o w N. subst w N. split.
    + rewrite get_next_id_eq. cbn [fst]. rewrite add_orders_book.
      unfold Dict.len. now rewrite numbered_length.
    + rewrite <- add_orders_snoc, !add_orders_book, numbered_app.
      cbn [numbered]. do 3 f_equal. lia.
  - intros os d. subst d. rewrite add_orders_book. repeat split.
    + unfold Dict.len. now rewrite numbered_length.
    + apply (numbered_keys_seq 1).
    + apply numbered_values.
Qed.

(** C9.  Frame: [add_order] writes the collection only by storing the passed
    order, as it is, under the next identifier; on a collection built by
    [add_order] this appends one entry and leaves every earlier entry as it
    was; apart from that it only adds text to standard output.
    [display_order_with_a_best_price] leaves the [Orders] object as it is: it
    returns [None] or raises, and only adds text to standard output. *)
Theorem add_order_display_frame :
  (forall (o : Order) (w : state),
      orders (self (snd (add_order o w)))
      = Dict.set Z.eqb (orders (self w)) (Dict.len (orders (self w)) + 1) o
      /\ exists out, stdout (snd (add_order o w)) = stdout w ++ out)
  /\ (forall (os : list Order) (o : Order),
        let w := add_orders os fresh in
        orders (self (snd (add_order o w)))
        = (orders (self w) ++ [(Z.of_nat (List.length os) + 1, o)])%list)
  /\ (forall w : state,
        self (snd (display_order_with_a_best_price w)) = self w
        /\ (exists out,
               stdout (snd (display_order_with_a_best_price w)) = stdout w ++ out)
        /\ (fst (display_order_with_a_best_price w) = inr tt
            \/ exists e, display_order_with_a_best_price w = (inl e, w))).
Proof.
  assert (D : forall w : state,
             self (snd (display_order_with_a_best_price w)) = self w
             /\ (exists out,
                    stdout (snd (display_order_with_a_best_price w))
                    = stdout w ++ out)
             /\ (fst (display_order_with_a_best_price w) = inr tt
                 \/ exists e, display_order_with_a_best_price w = (inl e, w))).
  { intros w. rewrite display_eq.
    destruct (best_orders (orders (self w))) as [e|res]; cbn [fst snd self stdout].
    - repeat split; [exists ""; now rewrite append_nil_r | right; now exists e].
    - repeat split; [eexists; reflexivity | now left]. }
  split; [|split].
  - intros o w. split; [apply add_order_orders|].
    rewrite add_order_eq.
    destruct (D {| self := {| orders := Dict.set Z.eqb (orders (self w))
                                          (Dict.len (orders (self w)) + 1) o |};
                   stdout := stdout w |}) as (_ & Hout & _).
    exact Hout.
  - intros os o w. subst w.
    rewrite <- add_orders_snoc, !add_orders_book, numbered_app.
    cbn [numbered]. do 3 f_equal. lia.
  - exact D.
Qed.

(** ** The fixture of the test suite *)

(** C5.  End-to-end scenario: inserting the four fixture orders into a fresh
    [Orders()] prints one line after the first insertion, the same line after
    the second, two lines after the third and the same two after the fourth:
    six lines, as the test expects. *)
Theorem fixture_output :
  stdout (add_orders (firstn 1 fixture_orders) fresh)
  = lines ["Best Buy Order: ID = 1, Price = 9801.0"]
  /\ stdout (add_orders (firstn 2 fixture_orders) fresh)
     = lines ["Best Buy Order: ID = 1, Price = 9801.0";
              "Best Buy Order: ID = 1, Price = 9801.0"]
  /\ stdout (add_orders (firstn 3 fixture_orders) fresh)
     = lines ["Best Buy Order: ID = 1, Price = 9801.0";
              "Best Buy Order: ID = 1, Price = 9801.0";
              "Best Buy Order: ID = 1, Price = 9801.0";
              "Best Sell Order: ID = 3, Price = 53.0"]
  /\ stdout (add_orders fixture_orders fresh)
     = lines ["Best Buy Order: ID = 1, Price = 9801.0";
              "Best Buy Order: ID = 1, Price = 9801.0";
              "Best Buy Order: ID = 1, Price = 9801.0";
              "Best Sell Order: ID = 3, Price = 53.0";
              "Best Buy Order: ID = 1, Price = 9801.0";
              "Best Sell Order: ID = 3, Price = 53.0"]
  /\ map order_total fixture_orders
     = map (fun pq => inr (PyFloat (float_of_ratio (fst pq) (snd pq))))
           [(9801, 1); (1, 1); (53, 1); (9, 10)].
Proof. repeat split; vm_compute; reflexivity. Qed.

(** ** Validation in [Order.__init__] *)

Lemma member_of_TransactionType (t : TransactionType) :
  member_of VTransactionType (VTransactionType t) TransactionType_members = Some t.
Proof. now destruct t. Qed.

Lemma member_of_OrderType (o : OrderType) :
  member_of VOrderType (VOrderType o) OrderType_members = Some o.
Proof. now destruct o. Qed.

Lemma not_member_of_TransactionType (x : value) :
  (forall t, x <> VTransactionType t) ->
  member_of VTransactionType x TransactionType_members = None.
Proof.
  intros H. destruct x as [t|o|s|n|]; try reflexivity.
  exfalso; eapply H; reflexivity.
Qed.

Lemma not_member_of_OrderType (x : value) :
  (forall o, x <> VOrderType o) ->
  member_of VOrderType x OrderType_members = None.
Proof.
  intros H. destruct x as [t|o|s|n|]; try reflexivity.
  exfalso; eapply H; reflexivity.
Qed.

(** C10.  Both validation failures raise the same exception class,
    [TypeError]: a failure on [transaction_type] and a failure on
    [order_type] differ in the message only. *)
Theorem validation_errors_same_class
    (ps ps' : list (Product * Z)) (tt ot tt' ot' : value) (e e' : exn) :
  (forall t, tt <> VTransactionType t) ->
  Order_init ps tt ot = inl e ->
  (exists t, tt' = VTransactionType t) ->
  Order_init ps' tt' ot' = inl e' ->
  exn_class e = "TypeError" /\ exn_class e' = "TypeError"
  /\ exn_msg e = TRANSACTION_TYPE_ERROR_MSG
  /\ exn_msg e' = ORDER_TYPE_ERROR_MSG
  /\ exn_msg e <> exn_msg e'.
Proof.
  intros Htt He [t ->] He'. unfold Order_init in He, He'.
  rewrite (not_member_of_TransactionType _ Htt) in He. injection He as <-.
  rewrite member_of_TransactionType in He'.
  destruct (member_of VOrderType ot' OrderType_members); [discriminate|].
  injection He' as <-. repeat split. vm_compute. discriminate.
Qed.

Lemma validation_errors_same_class_witness :
  exn_class (TypeError TRANSACTION_TYPE_ERROR_MSG) = "TypeError"
  /\ exn_class (TypeError ORDER_TYPE_ERROR_MSG) = "TypeError"
  /\ exn_msg (TypeError TRANSACTION_TYPE_ERROR_MSG) = TRANSACTION_TYPE_ERROR_MSG
  /\ exn_msg (TypeError ORDER_TYPE_ERROR_MSG) = ORDER_TYPE_ERROR_MSG
  /\ exn_msg (TypeError TRANSACTION_TYPE_ERROR_MSG)
     <> exn_msg (TypeError ORDER_TYPE_ERROR_MSG).
Proof.
  apply (validation_errors_same_class
           [] [] (VStr "invalid_transaction_type") (VOrderType REMOVE)
           (VTransactionType BUY) (VStr "invalid_order_type")).
  - intros t; discriminate.
  - reflexivity.
  - exists BUY; reflexivity.
  - reflexivity.
Defined.

(** C2, as stated, fails: the exception raised for a bad [transaction_type]
    is a [TypeError], there is no [InvalidTransactionType] class (nor an
    [InvalidOrderType] one). *)
Lemma validation_not_Invalid_classes :
  ~ validation_spec "InvalidTransactionType" "InvalidOrderType"
      [] (VStr "invalid_transaction_type") (VOrderType REMOVE)
  /\ ~ validation_spec "InvalidTransactionType" "InvalidOrderType"
         [] (VTransactionType BUY) (VStr "invalid_order_type").
Proof.
  split.
  - intros (H & _ & _). destruct H as (e & He & Hc & _); [intros t; discriminate|].
    vm_compute in He. injection He as <-. vm_compute in Hc. discriminate.
  - intros (_ & H & _).
    destruct (H BUY eq_refl) as (e & He & Hc & _); [intros o; discriminate|].
    vm_compute in He. injection He as <-. vm_compute in Hc. discriminate.
Qed.

(** C2, amended.  Validation: for every products mapping and every pair of
    arguments, construction raises [TypeError] with the transaction-type
    message when [transaction_type] is not a [TransactionType] member
    (whatever [order_type] is); raises [TypeError] with the order-type
    message when [transaction_type] is a member and [order_type] is not an
    [OrderType] member; and otherwise returns the order with the three
    arguments as its fields, the products mapping not being looked at. *)
Theorem Order_init_validation (ps : list (Product * Z)) (tt ot : value) :
  validation_spec "TypeError" "TypeError" ps tt ot.
Proof.
  unfold validation_spec, Order_init. split; [|split].
  - intros Htt. rewrite (not_member_of_TransactionType _ Htt).
    eexists; repeat split.
  - intros t -> Hot.
    rewrite member_of_TransactionType, (not_member_of_OrderType _ Hot).
    eexists; repeat split.
  - intros t o -> ->.
    now rewrite member_of_TransactionType, member_of_OrderType.
Qed.

Lemma Order_init_validation_witness :
  (exists e,
      Order_init [] (VStr "invalid_transaction_type") (VStr "invalid_order_type")
      = inl e
      /\ exn_class e = "TypeError" /\ exn_msg e = TRANSACTION_TYPE_ERROR_MSG)
  /\ (exists e,
         Order_init [] (VTransactionType SELL) (VStr "invalid_order_type") = inl e
         /\ exn_class e = "TypeError" /\ exn_msg e = ORDER_TYPE_ERROR_MSG)
  /\ Order_init [({| name := "Banana"; price := float_of_ratio 9 2 |}, -10)]
                (VTransactionType SELL) (VOrderType REMOVE)
     = inr {| products := [({| name := "Banana"; price := float_of_ratio 9 2 |}, -10)];
              transaction_type := SELL; order_type := REMOVE |}.
Proof.
  split; [|split].
  - apply (proj1 (Order_init_validation
                    [] (VStr "invalid_transaction_type") (VStr "invalid_order_type"))).
    intros t; discriminate.
  - apply (proj1 (proj2 (Order_init_validation
                           [] (VTransactionType SELL) (VStr "invalid_order_type")))
             SELL eq_refl).
    intros o; discriminate.
  - apply (proj2 (proj2 (Order_init_validation
                           [({| name := "Banana"; price := float_of_ratio 9 2 |}, -10)]
                           (VTransactionType SELL) (VOrderType REMOVE)))
             SELL REMOVE); reflexivity.
Defined.

(** ** The report of [display_order_with_a_best_price] *)

Lemma numbered_In (k j : Z) (os : list Order) (o : Order) :
  In (j, o) (numbered k os) -> In o os.
Proof.
  revert k; induction os as [|o0 os IH]; intros k; simpl; [tauto|].
  intros [H|H]; [left; congruence | right; eauto].
Qed.

Lemma numbered_key_unique (k j : Z) (os : list Order) (o o' : Order) :
  In (j, o) (numbered k os) -> In (j, o') (numbered k os) -> o = o'.
Proof.
  revert k; induction os as [|o0 os IH]; intros k; simpl; [tauto|].
  intros [H|H] [H'|H'].
  - congruence.
  - apply numbered_In_key in H'. assert (k = j) by congruence. lia.
  - apply numbered_In_key in H. assert (k = j) by congruence. lia.
  - eauto.
Qed.

Lemma types_of_In (d : list (Z * Order)) (t : TransactionType) :
  In t (types_of d) <-> exists j o, In (j, o) d /\ transaction_type o = t.
Proof.
  unfold types_of. rewrite in_map_iff. split.
  - intros ([j o] & E & H). now exists j, o.
  - intros (j & o & H & E). now exists (j, o).
Qed.

Lemma quantities_fit_totals (os : list Order) :
  Forall quantities_fit os -> totals_computed os.
Proof.
  unfold totals_computed. apply Forall_impl. intros o H.
  eexists. now apply order_total_fits.
Qed.

(** C1, as stated, fails on two kinds of input.  With a quantity too large
    to convert to a float ([2 ** 1024]) the multiplication raises
    [OverflowError] and nothing is printed; with a total that is not a number
    (a [nan] price) the first order stays the reported best although the
    second order of the type has total [5.0], which is not below-or-equal
    [nan]. *)
Lemma report_not_best_overflow_nan :
  (~ report_names_best [one_line (float_of_Z 1) (2 ^ 1024) BUY]
   /\ add_order (one_line (float_of_Z 1) (2 ^ 1024) BUY) fresh
      = (inl (OverflowError "int too large to convert to float"),
         {| self := {| orders := [(1, one_line (float_of_Z 1) (2 ^ 1024) BUY)] |};
            stdout := "" |}))
  /\ (~ report_names_best
         [one_line S754_nan 1 BUY; one_line (float_of_Z 5) 1 BUY]
      /\ stdout (add_orders
                   [one_line S754_nan 1 BUY; one_line (float_of_Z 5) 1 BUY] fresh)
         = lines ["Best Buy Order: ID = 1, Price = nan";
                  "Best Buy Order: ID = 1, Price = nan"]
      /\ order_total (one_line (float_of_Z 5) 1 BUY)
         = inr (PyFloat (float_of_Z 5))
      /\ number_le (PyFloat (float_of_Z 5)) (PyFloat S754_nan) = false).
Proof.
  split; split; [| vm_compute; reflexivity | | repeat split; vm_compute; reflexivity].
  - intros (res & H & _). vm_compute in H. discriminate.
  - intros (res & H & _ & Hb).
    assert (E : res = [(BUY, (1, PyFloat S754_nan))])
      by (vm_compute in H; now injection H as <-).
    subst res. destruct (Hb BUY) as (i & s & Hg & _ & Hle & _).
    { vm_compute. auto. }
    vm_compute in Hg. injection Hg as <- <-.
    specialize (Hle 2 (one_line (float_of_Z 5) 1 BUY)).
    vm_compute in Hle. assert (false = true); [|discriminate].
    apply Hle; auto.
Qed.

(** C1, amended.  For every sequence of orders inserted into a fresh
    [Orders()] in which every quantity converts to a float and no order's
    total is [nan], the report printed by [display_order_with_a_best_price]
    names, for each transaction type with a stored order, the pair (id,
    total) where total is the sum over the order's products of quantity times
    price, every stored order of the type has a total at most this one, and
    id is the lowest identifier of the orders of the type with that total. *)
Theorem best_report_correct (os : list Order) :
  Forall quantities_fit os ->
  Forall (fun o => number_is_nan (sum_products (products o)) = false) os ->
  report_names_best os.
Proof.
  intros Hfit Hnan. unfold report_names_best. cbv zeta.
  rewrite display_eq, add_orders_book.
  destruct (best_orders_numbered 1 os (quantities_fit_totals _ Hfit))
    as (res & Hres & [Hnone Hentry Hmax Hfirst]).
  rewrite Hres. exists res. split; [reflexivity|]. split; [reflexivity|].
  assert (Htot : forall j o, In (j, o) (numbered 1 os) ->
                   order_total o = inr (sum_products (products o))
                   /\ number_is_nan (sum_products (products o)) = false).
  { intros j o H. apply numbered_In in H. split.
    - apply order_total_fits. rewrite Forall_forall in Hfit. now apply Hfit.
    - rewrite Forall_forall in Hnan. now apply Hnan. }
  intros t Ht. apply types_of_In in Ht as (j & o & Hj & Ho).
  destruct (tget res t) as [[i s]|] eqn:G;
    [|exfalso; eapply Hnone; eauto].
  exists i, s. split; [reflexivity|].
  destruct (Hentry _ _ _ G) as (oi & Hi & Hti & Hsi).
  destruct (Htot _ _ Hi) as [Hsi' Hni].
  assert (s = sum_products (products oi)) by congruence. subst s.
  split; [|split].
  - exists oi; auto.
  - intros j' o' Hj' Ho'. destruct (Htot _ _ Hj') as [Hs' Hn'].
    apply number_not_lt_le; auto using sum_products_is_total.
    eapply Hmax; eauto.
  - intros j' o' Hj' Ho' Heq. destruct (Htot _ _ Hj') as [Hs' Hn'].
    eapply Hfirst; eauto.
Qed.

Lemma best_report_correct_witness :
  Forall quantities_fit fixture_orders
  /\ Forall (fun o => number_is_nan (sum_products (products o)) = false)
            fixture_orders
  /\ report_names_best fixture_orders.
Proof.
  assert (F : Forall quantities_fit fixture_orders)
    by (repeat constructor).
  assert (N : Forall (fun o => number_is_nan (sum_products (products o)) = false)
                     fixture_orders)
    by (repeat constructor).
  exact (conj F (conj N (best_report_correct fixture_orders F N))).
Defined.

(** ** One call of [add_order] on a book built by [add_order] *)

Lemma add_order_at_book (os : list Order) (o : Order) :
  let w := add_orders os fresh in
  let d := numbered 1 (os ++ [o])%list in
  add_order o w
  = match best_orders d with
    | inl e => (inl e, {| self := {| orders := d |}; stdout := stdout w |})
    | inr res =>
        (inr tt, {| self := {| orders := d |};
                    stdout := stdout w ++ lines (map best_line res) |})
    end.
Proof.
  intros w d. rewrite add_order_eq, display_eq. cbn [self orders stdout].
  assert (E : Dict.set Z.eqb (orders (self w)) (Dict.len (orders (self w)) + 1) o = d).
  { rewrite <- add_order_orders. subst w d.
    now rewrite <- add_orders_snoc, add_orders_book. }
  rewrite E. reflexivity.
Qed.

Lemma book_step (os : list Order) (o : Order) (res : best) (s : number) :
  best_orders (numbered 1 os) = inr res ->
  order_total o = inr s ->
  best_orders (numbered 1 (os ++ [o])%list)
  = inr (best_update res (Z.of_nat (List.length os) + 1) (transaction_type o) s).
Proof.
  intros Hres Hs. rewrite numbered_app. cbn [numbered].
  rewrite best_orders_snoc, Hres. cbn [bind].
  rewrite (best_step_eq _ _ _ _ Hs). do 2 f_equal. lia.
Qed.

Lemma tget_update_same (res : best) (j : Z) (t : TransactionType) (s : number) :
  tget (best_update res j t s) t
  = match tget res t with
    | None => Some (j, s)
    | Some details => if number_lt (snd details) s then Some (j, s) else Some details
    end.
Proof.
  unfold best_update.
  destruct (tget res t) as [details|] eqn:G;
    [destruct (number_lt (snd details) s)|]; auto;
    apply get_set_same, TransactionType_eqb_eq.
Qed.

Lemma best_orders_inv (os : list Order) (res : best) :
  best_orders (numbered 1 os) = inr res -> best_inv (numbered 1 os) res.
Proof.
  intros H.
  destruct (best_orders_numbered 1 os (best_orders_inr _ _ _ H)) as (r & Hr & Hi).
  congruence.
Qed.

(** ** Ties *)

(** C4.  Tie-break.  When an order [b] is added to a book whose report holds
    [(i, s)] for the type of [b], the record is replaced (by the new
    identifier and total) exactly when [s] is strictly less than the total of
    [b]; so with an equal total the earlier order stays the reported best.
    And of two stored orders of one type with equal totals, the later one is
    never the one reported. *)
Theorem tie_keeps_earlier :
  (forall (os : list Order) (b : Order) (res : best) (i : Z) (s sb : number),
      best_orders (orders (self (add_orders os fresh))) = inr res ->
      tget res (transaction_type b) = Some (i, s) ->
      order_total b = inr sb ->
      exists res',
        best_orders (orders (self (add_orders (os ++ [b]) fresh))) = inr res'
        /\ tget res' (transaction_type b)
           = (if number_lt s sb
              then Some (Z.of_nat (List.length os) + 1, sb)
              else Some (i, s))
        /\ (number_eq sb s = true ->
            tget res' (transaction_type b) = Some (i, s)))
  /\ (forall (os : list Order) (res : best) (i j : Z) (a b : Order)
             (i' : Z) (s' : number),
         let d := orders (self (add_orders os fresh)) in
         In (i, a) d -> In (j, b) d -> i < j ->
         transaction_type a = transaction_type b ->
         number_eq (sum_products (products a)) (sum_products (products b)) = true ->
         best_orders d = inr res ->
         tget res (transaction_type b) = Some (i', s') ->
         i' <> j).
Proof.
  split.
  - intros os b res i s sb Hres Hg Hsb. rewrite !add_orders_book in *.
    rewrite (book_step _ _ _ _ Hres Hsb). eexists. split; [reflexivity|].
    rewrite tget_update_same, Hg. cbn [snd].
    split; [now destruct (number_lt s sb)|].
    intros Heq.
    destruct (inv_entry _ _ (best_orders_inv _ _ Hres) _ _ _ Hg) as (o & _ & _ & Hs).
    rewrite (number_eq_not_lt s sb); eauto using order_total_is_total.
  - intros os res i j a b i' s' d Ha Hb Hij Ht Heq Hres Hg. subst d.
    rewrite add_orders_book in *. intros ->.
    pose proof (best_orders_inv _ _ Hres) as [_ Hentry _ Hfirst].
    pose proof (best_orders_inr _ _ _ Hres) as Htot.
    unfold totals_computed in Htot. rewrite Forall_forall in Htot.
    destruct (Hentry _ _ _ Hg) as (o & Ho & _ & Hs).
    assert (o = b) by (eapply numbered_key_unique; eauto). subst o.
    apply order_total_sum in Hs as [-> _].
    destruct (Htot a (numbered_In _ _ _ _ Ha)) as [sa Hsa].
    pose proof (order_total_sum _ _ Hsa) as [-> _].
    specialize (Hfirst _ _ _ Hg i a _ Ha Ht Hsa Heq). lia.
Qed.

Lemma tie_keeps_earlier_witness :
  (exists res',
      best_orders
        (orders (self (add_orders
                         ([one_line (float_of_Z 7) 1 BUY]
                            ++ [one_line (float_of_Z 1) 7 BUY]) fresh)))
      = inr res'
      /\ tget res' BUY
         = (if number_lt (PyFloat (float_of_Z 7)) (PyFloat (float_of_Z 7))
            then Some (Z.of_nat 1 + 1, PyFloat (float_of_Z 7))
            else Some (1, PyFloat (float_of_Z 7)))
      /\ (number_eq (PyFloat (float_of_Z 7)) (PyFloat (float_of_Z 7)) = true ->
          tget res' BUY = Some (1, PyFloat (float_of_Z 7))))
  /\ 1 <> 2.
Proof.
  split.
  - apply (proj1 tie_keeps_earlier
             [one_line (float_of_Z 7) 1 BUY] (one_line (float_of_Z 1) 7 BUY)
             [(BUY, (1, PyFloat (float_of_Z 7)))]);
      vm_compute; reflexivity.
  - apply (proj2 tie_keeps_earlier
             [one_line (float_of_Z 7) 1 BUY; one_line (float_of_Z 1) 7 BUY]
             [(BUY, (1, PyFloat (float_of_Z 7)))]
             1 2 (one_line (float_of_Z 7) 1 BUY) (one_line (float_of_Z 1) 7 BUY)
             1 (PyFloat (float_of_Z 7))).
    + vm_compute; auto.
    + vm_compute; auto.
    + lia.
    + reflexivity.
    + vm_compute; reflexivity.
    + vm_compute; reflexivity.
    + vm_compute; reflexivity.
Defined.

(** ** The printed lines *)







(** ** Orders with no products *)

(** C7.  An order with an empty products mapping has the total [0] (the
    integer the sum starts from; it equals [0.0] and compares with every
    total as [0.0] does) and takes part in the comparison like any other
    order: it seeds the record of its type when it is the first of the type;
    otherwise it replaces the record exactly when the recorded total is below
    [0]; and when it is the reported best, a later order replaces it exactly
    when it has the same type and a total strictly above [0]. *)
Theorem empty_products_order (e : Order) :
  products e = [] ->
  order_total e = inr (PyInt 0)
  /\ number_eq (PyInt 0) (PyFloat (S754_zero false)) = true
  /\ (forall (o' : Order) (s' : number),
         order_total o' = inr s' ->
         number_compare (PyInt 0) s' = number_compare (PyFloat (S754_zero false)) s'
         /\ number_compare s' (PyInt 0)
            = number_compare s' (PyFloat (S754_zero false)))
  /\ (forall (os : list Order) (res : best),
         best_orders (orders (self (add_orders os fresh))) = inr res ->
         tget res (transaction_type e) = None ->
         exists res',
           best_orders (orders (self (add_orders (os ++ [e]) fresh))) = inr res'
           /\ tget res' (transaction_type e)
              = Some (Z.of_nat (List.length os) + 1, PyInt 0))
  /\ (forall (os : list Order) (res : best) (i : Z) (s : number),
         best_orders (orders (self (add_orders os fresh))) = inr res ->
         tget res (transaction_type e) = Some (i, s) ->
         exists res',
           best_orders (orders (self (add_orders (os ++ [e]) fresh))) = inr res'
           /\ tget res' (transaction_type e)
              = (if number_lt s (PyInt 0)
                 then Some (Z.of_nat (List.length os) + 1, PyInt 0)
                 else Some (i, s)))
  /\ (forall (os : list Order) (res : best) (i : Z) (s : number)
             (o' : Order) (s' : number),
         In (i, e) (orders (self (add_orders os fresh))) ->
         best_orders (orders (self (add_orders os fresh))) = inr res ->
         tget res (transaction_type e) = Some (i, s) ->
         order_total o' = inr s' ->
         s = PyInt 0
         /\ exists res',
             best_orders (orders (self (add_orders (os ++ [o']) fresh))) = inr res'
             /\ tget res' (transaction_type e)
                = (if TransactionType_eqb (transaction_type o') (transaction_type e)
                      && number_lt (PyInt 0) s'
                   then Some (Z.of_nat (List.length os) + 1, s')
                   else Some (i, PyInt 0))).
Proof.
  intros He.
  assert (Htot : order_total e = inr (PyInt 0))
    by (rewrite order_total_unfold, He; reflexivity).
  split; [exact Htot|]. split; [reflexivity|]. split; [|split; [|split]].
  - intros o' s' Hs'. apply order_total_is_total in Hs'.
    assert (T0 : is_total (PyInt 0)) by now left.
    assert (T1 : is_total (PyFloat (S754_zero false))) by (right; now eexists).
    now rewrite !number_compare_total.
  - intros os res Hres Hg. rewrite !add_orders_book in *.
    rewrite (book_step _ _ _ _ Hres Htot). eexists. split; [reflexivity|].
    now rewrite tget_update_same, Hg.
  - intros os res i s Hres Hg. rewrite !add_orders_book in *.
    rewrite (book_step _ _ _ _ Hres Htot). eexists. split; [reflexivity|].
    rewrite tget_update_same, Hg. cbn [snd].
    now destruct (number_lt s (PyInt 0)).
  - intros os res i s o' s' Hin Hres Hg Hs'. rewrite !add_orders_book in *.
    assert (s = PyInt 0) as ->.
    { destruct (inv_entry _ _ (best_orders_inv _ _ Hres) _ _ _ Hg)
        as (o & Ho & _ & Hs).
      assert (o = e) by (eapply numbered_key_unique; eauto). congruence. }
    split; [reflexivity|].
    rewrite (book_step _ _ _ _ Hres Hs'). eexists. split; [reflexivity|].
    destruct (TransactionType_eqb (transaction_type o') (transaction_type e)) eqn:E.
    + apply TransactionType_eqb_eq in E. rewrite E.
      rewrite tget_update_same, Hg. cbn [snd andb].
      now destruct (number_lt (PyInt 0) s').
    + apply TransactionType_eqb_neq in E.
      rewrite tget_update_other by congruence. exact Hg.
Qed.

Lemma empty_products_order_witness :
  order_total {| products := []; transaction_type := SELL; order_type := ADD |}
  = inr (PyInt 0)
  /\ exists res',
      best_orders
        (orders (self (add_orders
                         ([{| products := []; transaction_type := SELL;
                              order_type := ADD |}]
                            ++ [one_line (float_of_Z 53) 1 SELL]) fresh)))
      = inr res'
      /\ tget res' SELL = Some (2, PyFloat (float_of_Z 53)).
Proof.
  pose (e := {| products := []; transaction_type := SELL; order_type := ADD |}).
  destruct (empty_products_order e eq_refl) as (Ht & _ & _ & _ & _ & H).
  split; [exact Ht|].
  destruct (H [e] [(SELL, (1, PyInt 0))] 1 (PyInt 0)
              (one_line (float_of_Z 53) 1 SELL) (PyFloat (float_of_Z 53)))
    as (_ & res' & Hres' & Hg).
  - vm_compute; auto.
  - vm_compute; reflexivity.
  - vm_compute; reflexivity.
  - vm_compute; reflexivity.
  - exists res'. split; [exact Hres' | exact Hg].
Defined.

(** ** The order type *)

Lemma erase_same (os os' : list Order) :
  Forall2 same_but_order_type os os' ->
  map erase_order_type os = map erase_order_type os'.
Proof.
  induction 1 as [|a b os os' [Hp Ht] _ IH]; simpl; [reflexivity|].
  unfold erase_order_type at 1 3. now rewrite Hp, Ht, IH.
Qed.

Lemma foldM_best_erase (k : Z) (os : list Order) (res : best) :
  foldM best_step (numbered k (map erase_order_type os)) res
  = foldM best_step (numbered k os) res.
Proof.
  revert k res; induction os as [|o os IH]; intros k res; [reflexivity|].
  cbn [map numbered foldM].
  change (best_step res (k, erase_order_type o)) with (best_step res (k, o)).
  destruct (best_step res (k, o)) as [e|res1]; cbn [bind]; [reflexivity|].
  apply IH.
Qed.

Lemma stdout_erase (os : list Order) :
  stdout (add_orders (map erase_order_type os) fresh)
  = stdout (add_orders os fresh).
Proof.
  induction os as [|o os IH] using rev_ind; [reflexivity|].
  rewrite map_app. cbn [map]. rewrite !add_orders_snoc.
  pose proof (add_order_at_book os o) as H1.
  pose proof (add_order_at_book (map erase_order_type os) (erase_order_type o)) as H2.
  cbv zeta in H1, H2. rewrite H1, H2.
  change (map erase_order_type os ++ [erase_order_type o])%list
    with (map erase_order_type os ++ map erase_order_type [o])%list.
  rewrite <- map_app. unfold best_orders, Dict.items.
  rewrite foldM_best_erase, IH.
  now destruct (foldM best_step (numbered 1 (os ++ [o])) Dict.empty).
Qed.

Lemma numbered_same (k : Z) (os os' : list Order) :
  Forall2 same_but_order_type os os' ->
  Forall2 (fun e e' => fst e = fst e' /\ same_but_order_type (snd e) (snd e'))
          (numbered k os) (numbered k os').
Proof.
  intros H; revert k; induction H as [|a b os os' Hab _ IH]; intros k;
    cbn [numbered]; constructor; auto.
Qed.

(** C8.  The order type is inert: two sequences of [add_order] calls on
    fresh books that differ at most in the [order_type] of the inserted
    orders print the same text, assign the same identifiers, and store, under
    each identifier, orders with the same products and transaction type. *)
Theorem order_type_inert (os os' : list Order) :
  Forall2 same_but_order_type os os' ->
  let w := add_orders os fresh in
  let w' := add_orders os' fresh in
  stdout w = stdout w'
  /\ Dict.keys (orders (self w)) = Dict.keys (orders (self w'))
  /\ Forall2 (fun e e' => fst e = fst e' /\ same_but_order_type (snd e) (snd e'))
             (orders (self w)) (orders (self w')).
Proof.
  intros H w w'. subst w w'. rewrite !add_orders_book. split; [|split].
  - rewrite <- (stdout_erase os), <- (stdout_erase os').
    now rewrite (erase_same _ _ H).
  - pose proof (numbered_keys_seq 1 os) as K.
    pose proof (numbered_keys_seq 1 os') as K'.
    change (Z.of_nat 1) with 1 in K, K'.
    now rewrite K, K', (Forall2_length H).
  - now apply numbered_same.
Qed.

Lemma order_type_inert_witness :
  stdout (add_orders fixture_orders fresh)
  = stdout (add_orders
              (map (fun o => {| products := products o;
                                transaction_type := transaction_type o;
                                order_type := REMOVE |}) fixture_orders) fresh).
Proof.
  apply (order_type_inert fixture_orders
           (map (fun o => {| products := products o;
                             transaction_type := transaction_type o;
                             order_type := REMOVE |}) fixture_orders)).
  repeat constructor.
Defined.

(** ** Further properties of the methods *)

(** *** The whole output of a sequence of calls *)

Lemma add_order_stdout (os : list Order) (o : Order) :
  stdout (add_orders (os ++ [o]) fresh)
  = stdout (add_orders os fresh) ++ report_text (os ++ [o]).
Proof.
  rewrite add_orders_snoc.
  pose proof (add_order_at_book os o) as H. cbv zeta in H. rewrite H.
  unfold report_text.
  destruct (best_orders (numbered 1 (os ++ [o]))); cbn [snd stdout];
    [now rewrite append_nil_r | reflexivity].
Qed.

Lemma add_orders_app (os1 os2 : list Order) (w : state) :
  add_orders (os1 ++ os2) w = add_orders os2 (add_orders os1 w).
Proof. unfold add_orders. apply fold_left_app. Qed.

(** X1.  Full recomputation: the text on standard output after a sequence
    of [add_order] calls on a fresh book is the concatenation, call by call,
    of the report over all the orders stored at that call (nothing for a call
    that raises); earlier output is never rewritten. *)
Theorem stdout_transcript (done todo : list Order) :
  stdout (add_orders (done ++ todo) fresh)
  = stdout (add_orders done fresh) ++ transcript done todo.
Proof.
  revert done; induction todo as [|o todo IH]; intros done.
  - rewrite app_nil_r. cbn [transcript]. now rewrite append_nil_r.
  - cbn [transcript].
    replace (done ++ o :: todo)%list with ((done ++ [o]) ++ todo)%list
      by (rewrite <- app_assoc; reflexivity).
    rewrite IH, add_order_stdout. apply append_assoc.
Qed.

(** *** Exceptions of [add_order] *)










(** *** The report of one transaction type *)

Lemma foldM_best_of_type (t : TransactionType) (d : list (Z * Order))
    (r r' res : best) :
  foldM best_step d r = inr res ->
  tget r' t = tget r t ->
  exists res', foldM best_step (of_type t d) r' = inr res'
               /\ tget res' t = tget res t.
Proof.
  revert r r'; induction d as [|[j o] d IH]; intros r r'; cbn [foldM of_type filter].
  - intros [= <-] H. exists r'. split; [reflexivity | exact H].
  - destruct (best_step r (j, o)) as [e|r1] eqn:E; cbn [bind]; [discriminate|].
    intros Hres Hr.
    destruct (best_step_inr _ _ _ _ E) as [s Hs].
    rewrite (best_step_eq _ _ _ _ Hs) in E. injection E as <-.
    cbn [snd].
    destruct (TransactionType_eqb (transaction_type o) t) eqn:Et.
    + apply TransactionType_eqb_eq in Et. cbn [foldM].
      rewrite (best_step_eq _ _ _ _ Hs). cbn [bind].
      apply (IH _ _ Hres). rewrite Et, !tget_update_same. now rewrite Hr.
    + apply TransactionType_eqb_neq in Et.
      apply (IH _ _ Hres). rewrite tget_update_other by congruence. exact Hr.
Qed.

(** X3.  The report of a transaction type depends only on the orders of
    that type: running the loop over the entries of the type alone (with
    their identifiers) gives the same record for the type, whatever the
    stored orders of the other type are. *)
Theorem report_per_type (d : list (Z * Order)) (t : TransactionType) (res : best) :
  best_orders d = inr res ->
  exists res', best_orders (of_type t d) = inr res'
               /\ tget res' t = tget res t.
Proof.
  intros H. unfold best_orders, Dict.items in *.
  eapply foldM_best_of_type; eauto.
Qed.

Lemma report_per_type_witness :
  exists res',
    best_orders (of_type SELL (numbered 1 fixture_orders)) = inr res'
    /\ tget res' SELL = Some (3, PyFloat (float_of_Z 53)).
Proof.
  destruct (report_per_type (numbered 1 fixture_orders) SELL
              [(BUY, (1, PyFloat (float_of_Z 9801)));
               (SELL, (3, PyFloat (float_of_Z 53)))])
    as (res' & H & G).
  - vm_compute. reflexivity.
  - exists res'. split; [exact H | exact G].
Defined.

(** *** The report over time *)

Lemma number_lt_asym (a b : number) :
  is_total a -> is_total b -> number_lt a b = true -> number_lt b a = false.
Proof.
  intros Ha Hb H. destruct (number_lt b a) eqn:E; [|reflexivity].
  rewrite <- (number_lt_irrefl a Ha). symmetry.
  now apply (number_lt_trans a b a).
Qed.

Lemma best_orders_prefix (os os' : list Order) (res' : best) :
  best_orders (numbered 1 (os ++ os')) = inr res' ->
  exists res, best_orders (numbered 1 os) = inr res.
Proof.
  intros H. apply best_orders_inr in H. unfold totals_computed in H.
  apply Forall_app in H as [H _].
  destruct (best_orders_numbered 1 os H) as (res & Hres & _). eauto.
Qed.

(** X4.  The report only improves.  Once a transaction type has a record
    [(i, s)], it has one after any further insertions, [(i', s')] with
    [i <= i'] and [s'] not below [s]: either the same record, or the record
    of an order inserted later whose total is strictly above [s]. *)
Theorem report_monotone (os os' : list Order) (res res' : best)
    (t : TransactionType) (i : Z) (s : number) :
  best_orders (orders (self (add_orders os fresh))) = inr res ->
  best_orders (orders (self (add_orders (os ++ os') fresh))) = inr res' ->
  tget res t = Some (i, s) ->
  exists i' s',
    tget res' t = Some (i', s')
    /\ i <= i'
    /\ number_lt s' s = false
    /\ ((i' = i /\ s' = s)
        \/ (Z.of_nat (List.length os) < i' /\ number_lt s s' = true)).
Proof.
  rewrite !add_orders_book. intros Hres Hres' Hg. revert res' Hres'.
  destruct (inv_entry _ _ (best_orders_inv _ _ Hres) _ _ _ Hg) as (oi & Hi & _ & Hsi).
  pose proof (order_total_is_total _ _ Hsi) as Ts.
  apply numbered_In_key in Hi.
  induction os' as [|o os' IH] using rev_ind; intros res' Hres'.
  - rewrite app_nil_r in Hres'. assert (res' = res) by congruence. subst res'.
    exists i, s. repeat split; auto; [lia | now apply number_lt_irrefl].
  - rewrite app_assoc in Hres'.
    destruct (best_orders_prefix _ _ _ Hres') as [res1 Hres1].
    destruct (IH _ Hres1) as (i1 & s1 & G1 & Hle & Hnlt & Hcase).
    pose proof (best_orders_inr _ _ _ Hres') as Htot.
    unfold totals_computed in Htot. apply Forall_app in Htot as [_ Ho].
    inversion Ho as [|? ? [so Hso] _]; subst.
    rewrite (book_step _ _ _ _ Hres1 Hso) in Hres'. injection Hres' as <-.
    destruct (inv_entry _ _ (best_orders_inv _ _ Hres1) _ _ _ G1)
      as (o1 & Hi1 & _ & Hs1).
    pose proof (order_total_is_total _ _ Hs1) as Ts1.
    pose proof (order_total_is_total _ _ Hso) as Tso.
    apply numbered_In_key in Hi1. rewrite length_app in *.
    destruct (TransactionType_eqb (transaction_type o) t) eqn:Et.
    + apply TransactionType_eqb_eq in Et. rewrite Et, tget_update_same, G1.
      cbn [snd]. destruct (number_lt s1 so) eqn:L.
      * assert (Hlt : number_lt s so = true).
        { destruct Hcase as [[_ ->]|[_ Hlt1]]; [exact L|].
          now apply (number_lt_trans s s1 so). }
        eexists _, _. split; [reflexivity|].
        split; [lia|]. split; [now apply number_lt_asym|].
        right. split; [lia | exact Hlt].
      * exists i1, s1. auto.
    + apply TransactionType_eqb_neq in Et.
      rewrite tget_update_other by congruence. exists i1, s1. auto.
Qed.

Lemma report_monotone_witness :
  exists i' s',
    tget [(BUY, (1, PyFloat (float_of_Z 9801)));
          (SELL, (3, PyFloat (float_of_Z 53)))] BUY = Some (i', s')
    /\ 1 <= i'
    /\ number_lt s' (PyFloat (float_of_Z 9801)) = false
    /\ ((i' = 1 /\ s' = PyFloat (float_of_Z 9801))
        \/ (Z.of_nat (List.length (firstn 1 fixture_orders)) < i'
            /\ number_lt (PyFloat (float_of_Z 9801)) s' = true)).
Proof.
  apply (report_monotone (firstn 1 fixture_orders) (skipn 1 fixture_orders)
           [(BUY, (1, PyFloat (float_of_Z 9801)))]);
    vm_compute; reflexivity.
Defined.

(** *** How many lines, and in which order *)





(** *** Reporting again *)

(** X6.  The report is a function of the book alone: calling
    [display_order_with_a_best_price] right after [add_order] has the same
    outcome as the call of [add_order] had (it returns, or raises the same
    exception), leaves the book as it is and prints the same text once
    more. *)
Theorem display_repeats (o : Order) (w : state) :
  let w1 := snd (add_order o w) in
  let w2 := snd (display_order_with_a_best_price w1) in
  fst (display_order_with_a_best_price w1) = fst (add_order o w)
  /\ self w2 = self w1
  /\ exists text, stdout w1 = stdout w ++ text /\ stdout w2 = stdout w1 ++ text.
Proof.
  intros w1 w2. subst w2 w1. rewrite add_order_eq.
  set (w0 := {| self := {| orders := Dict.set Z.eqb (orders (self w))
                                       (Dict.len (orders (self w)) + 1) o |};
                stdout := stdout w |}).
  rewrite (display_eq w0).
  destruct (best_orders (orders (self w0))) as [e|res] eqn:E; cbn [fst snd].
  - rewrite display_eq, E. cbn [fst snd self stdout].
    repeat split. exists "". now rewrite !append_nil_r.
  - rewrite display_eq. cbn [self stdout]. rewrite E. cbn [fst snd self stdout].
    repeat split. eexists. split; reflexivity.
Qed.

(** *** Identifiers on a book that has lost entries *)

Section DictKeys.
Context {K V : Type}.
Variable eqb : K -> K -> bool.
Hypothesis eqb_eq : forall a b, eqb a b = true <-> a = b.

Lemma keys_set_in (d : Dict.t) (k : K) (v : V) :
  In k (Dict.keys d) -> Dict.keys (Dict.set eqb d k v) = Dict.keys d.
Proof.
  induction d as [|[k' v'] d IH]; cbn [Dict.keys Dict.set map In fst].
  - tauto.
  - intros H. destruct (eqb k' k) eqn:E; cbn [map fst]; [reflexivity|].
    f_equal. apply IH. destruct H as [H|H]; [|exact H].
    exfalso. apply eqb_eq in H. congruence.
Qed.

Lemma set_length_in (d : Dict.t) (k : K) (v : V) :
  In k (Dict.keys d) -> List.length (Dict.set eqb d k v) = List.length d.
Proof.
  intros H. rewrite <- (length_map fst (Dict.set eqb d k v)).
  change (map fst (Dict.set eqb d k v)) with (Dict.keys (Dict.set eqb d k v)).
  rewrite keys_set_in by assumption. apply length_map.
Qed.
End DictKeys.

(** X7.  [add_order] takes [len(orders) + 1] as identifier whether or not
    it is free.  On a book in which that key is taken (one that has lost an
    entry), the call replaces the order stored under it: keys and size stay
    as they are; when the key is free the call appends one entry. *)
Theorem add_order_key_taken (o : Order) (w : state) :
  let d := orders (self w) in
  let k := Dict.len d + 1 in
  let d' := orders (self (snd (add_order o w))) in
  (In k (Dict.keys d) ->
   Dict.keys d' = Dict.keys d /\ Dict.len d' = Dict.len d
   /\ Dict.get Z.eqb d' k = Some o)
  /\ (~ In k (Dict.keys d) ->
      d' = (d ++ [(k, o)])%list /\ Dict.len d' = Dict.len d + 1).
Proof.
  intros d k d'. subst d'. rewrite add_order_orders. fold d. fold k. split.
  - intros H. split; [|split].
    + now apply (keys_set_in Z.eqb Z.eqb_eq).
    + unfold Dict.len. now rewrite (set_length_in Z.eqb Z.eqb_eq).
    + apply (get_set_same Z.eqb Z.eqb_eq).
  - intros H. rewrite (set_new Z.eqb Z.eqb_eq) by assumption.
    split; [reflexivity|]. unfold Dict.len.
    now rewrite length_app, Nat2Z.inj_add.
Qed.

Lemma add_order_key_taken_witness :
  (Dict.keys (orders (self (snd (add_order (one_line (float_of_Z 2) 1 BUY)
              {| self := {| orders := [(2, one_line (float_of_Z 1) 1 SELL)] |};
                 stdout := "" |}))))
   = [2]
   /\ Dict.len (orders (self (snd (add_order (one_line (float_of_Z 2) 1 BUY)
              {| self := {| orders := [(2, one_line (float_of_Z 1) 1 SELL)] |};
                 stdout := "" |}))))
      = 1
   /\ Dict.get Z.eqb
        (orders (self (snd (add_order (one_line (float_of_Z 2) 1 BUY)
              {| self := {| orders := [(2, one_line (float_of_Z 1) 1 SELL)] |};
                 stdout := "" |})))) 2
      = Some (one_line (float_of_Z 2) 1 BUY))
  /\ orders (self (snd (add_order (one_line (float_of_Z 2) 1 BUY) fresh)))
     = [(1, one_line (float_of_Z 2) 1 BUY)].
Proof.
  split.
  - apply (proj1 (add_order_key_taken (one_line (float_of_Z 2) 1 BUY)
             {| self := {| orders := [(2, one_line (float_of_Z 1) 1 SELL)] |};
                stdout := "" |})).
    simpl. auto.
  - apply (proj2 (add_order_key_taken (one_line (float_of_Z 2) 1 BUY) fresh)).
    simpl. tauto.
Defined.

(** *** A product line of quantity zero *)

Lemma fadd_zero_r (x : float) (s : bool) : same_rank (fadd x (S754_zero s)) x.
Proof.
  destruct x as [sx|sx| |sx m e]; unfold fadd; cbn [SFadd]; try (left; reflexivity).
  destruct sx, s; try (left; reflexivity); right; eauto.
Qed.

Lemma fadd_same_rank (a b y : float) :
  same_rank a b -> same_rank (fadd a y) (fadd b y).
Proof.
  intros [->|(s & s' & -> & ->)]; [left; reflexivity|].
  destruct y as [sy|sy| |sy m e]; unfold fadd; cbn [SFadd];
    try (left; reflexivity).
  destruct s, s', sy; right; eauto.
Qed.

Lemma fmul_zero_finite (p : float) :
  is_finite p = true -> exists s, fmul (float_of_Z 0) p = S754_zero s.
Proof.
  change (float_of_Z 0) with (S754_zero false).
  destruct p as [sp|sp| |sp m e]; cbn [is_finite]; try discriminate;
    intros _; unfold fmul; cbn [SFmul]; eauto.
Qed.

Lemma SFcompare_same_rank (a b y : float) :
  same_rank a b ->
  SFcompare a y = SFcompare b y /\ SFcompare y a = SFcompare y b.
Proof.
  intros [->|(s & s' & -> & ->)]; [auto|].
  destruct y as [sy|sy| |sy m e]; cbn [SFcompare]; auto.
Qed.

Lemma fold_same_rank (ps : list (Product * Z)) (a b : float) :
  same_rank a b ->
  same_rank
    (fold_left (fun acc pq => fadd acc (fmul (float_of_Z (snd pq)) (price (fst pq))))
               ps a)
    (fold_left (fun acc pq => fadd acc (fmul (float_of_Z (snd pq)) (price (fst pq))))
               ps b).
Proof.
  revert a b; induction ps as [|pq ps IH]; intros a b H; cbn [fold_left];
    [exact H|].
  apply IH. now apply fadd_same_rank.
Qed.

Lemma total_float_sum (ps : list (Product * Z)) :
  total_float (sum_products ps)
  = fold_left (fun acc pq => fadd acc (fmul (float_of_Z (snd pq)) (price (fst pq))))
              ps (S754_zero false).
Proof. destruct ps; reflexivity. Qed.

(** X8.  A product line of quantity zero and a finite price does not change
    how the order ranks: wherever the line stands in the products mapping,
    the total is computed whenever it is without the line, and it compares
    with every total exactly as the total without the line does. *)
Theorem zero_quantity_line (o o' : Order) (ps1 ps2 : list (Product * Z))
    (prod : Product) (s : number) :
  products o = (ps1 ++ ps2)%list ->
  products o' = (ps1 ++ (prod, 0) :: ps2)%list ->
  is_finite (price prod) = true ->
  order_total o = inr s ->
  exists s',
    order_total o' = inr s'
    /\ forall (o2 : Order) (x : number),
        order_total o2 = inr x ->
        number_compare s' x = number_compare s x
        /\ number_compare x s' = number_compare x s.
Proof.
  intros Ho Ho' Hp Hs.
  apply order_total_sum in Hs as [-> Hfit]. rewrite Ho in Hfit.
  apply Forall_app in Hfit as [Hf1 Hf2].
  exists (sum_products (products o')). split.
  - apply order_total_fits. rewrite Ho'. apply Forall_app. split; [exact Hf1|].
    constructor; [reflexivity | exact Hf2].
  - intros o2 x Hx. apply order_total_is_total in Hx.
    rewrite !number_compare_total by (auto using sum_products_is_total).
    apply SFcompare_same_rank. rewrite !total_float_sum, Ho, Ho'.
    rewrite !fold_left_app. cbn [fold_left fst snd].
    apply fold_same_rank.
    destruct (fmul_zero_finite _ Hp) as [z ->]. apply fadd_zero_r.
Qed.

Lemma zero_quantity_line_witness :
  exists s',
    order_total {| products := [({| name := "Banana"; price := float_of_ratio 9 2 |}, 0);
                                ({| name := "Apple"; price := float_of_Z 7 |}, 3)];
                   transaction_type := BUY; order_type := ADD |}
    = inr s'
    /\ forall (o2 : Order) (x : number),
        order_total o2 = inr x ->
        number_compare s' x = number_compare (PyFloat (float_of_Z 21)) x
        /\ number_compare x s' = number_compare x (PyFloat (float_of_Z 21)).
Proof.
  apply (zero_quantity_line
           {| products := [({| name := "Apple"; price := float_of_Z 7 |}, 3)];
              transaction_type := BUY; order_type := ADD |} _
           [] [({| name := "Apple"; price := float_of_Z 7 |}, 3)]
           {| name := "Banana"; price := float_of_ratio 9 2 |});
    vm_compute; reflexivity.
Defined.

(** *** Strings are not enum members *)

(** X9.  [Order.__init__] compares with the members themselves: the value
    string of a member (["Buy"], ["Add"], ...) is rejected like any other
    string, although the message names it, and a member of one enumeration is
    rejected where the other is expected. *)
Theorem value_strings_rejected (ps : list (Product * Z)) :
  (forall (t : TransactionType) (ot : value),
      Order_init ps (VStr (TransactionType_value t)) ot
      = inl (TypeError TRANSACTION_TYPE_ERROR_MSG))
  /\ (forall (t : TransactionType) (o : OrderType),
         Order_init ps (VTransactionType t) (VStr (OrderType_value o))
         = inl (TypeError ORDER_TYPE_ERROR_MSG))
  /\ (forall (o : OrderType) (ot : value),
         Order_init ps (VOrderType o) ot
         = inl (TypeError TRANSACTION_TYPE_ERROR_MSG))
  /\ (forall t t' : TransactionType,
         Order_init ps (VTransactionType t) (VTransactionType t')
         = inl (TypeError ORDER_TYPE_ERROR_MSG)).
Proof.
  unfold Order_init.
  repeat split; intros; rewrite ?member_of_TransactionType; reflexivity.
Qed.

(** *** The report when totals may be [nan] *)

(** X10.  Whatever the totals are ([nan] included), when the loop ends the
    record [(i, s)] of a transaction type is a stored order of that type with
    its total, no stored order of the type has a total strictly above [s],
    and no stored order of the type with a total equal to [s] has a lower
    identifier. *)
Theorem report_never_beaten (os : list Order) (res : best)
    (t : TransactionType) (i : Z) (s : number) :
  best_orders (orders (self (add_orders os fresh))) = inr res ->
  tget res t = Some (i, s) ->
  (exists o, In (i, o) (orders (self (add_orders os fresh)))
             /\ transaction_type o = t /\ order_total o = inr s)
  /\ forall (j : Z) (o : Order) (s' : number),
      In (j, o) (orders (self (add_orders os fresh))) ->
      transaction_type o = t ->
      order_total o = inr s' ->
      number_lt s s' = false /\ (number_eq s' s = true -> i <= j).
Proof.
  rewrite add_orders_book. intros Hres Hg.
  destruct (best_orders_inv _ _ Hres) as [_ Hentry Hmax Hfirst].
  split; [eauto|]. intros j o s' Hj Ht Hs'. split; eauto.
Qed.

Lemma report_never_beaten_witness :
  (exists o,
      In (3, o) (orders (self (add_orders
                   [one_line (float_of_Z 1) 1 BUY; one_line S754_nan 1 BUY;
                    one_line (float_of_Z 2) 1 BUY] fresh)))
      /\ transaction_type o = BUY /\ order_total o = inr (PyFloat (float_of_Z 2)))
  /\ forall (j : Z) (o : Order) (s' : number),
      In (j, o) (orders (self (add_orders
                   [one_line (float_of_Z 1) 1 BUY; one_line S754_nan 1 BUY;
                    one_line (float_of_Z 2) 1 BUY] fresh))) ->
      transaction_type o = BUY ->
      order_total o = inr s' ->
      number_lt (PyFloat (float_of_Z 2)) s' = false
      /\ (number_eq s' (PyFloat (float_of_Z 2)) = true -> 3 <= j).
Proof.
  apply (report_never_beaten
           [one_line (float_of_Z 1) 1 BUY; one_line S754_nan 1 BUY;
            one_line (float_of_Z 2) 1 BUY]
           [(BUY, (3, PyFloat (float_of_Z 2)))]);
    vm_compute; reflexivity.
Defined.
